(** * Dataset creation, plugin dispatch and GitHub sibling creation

    A shallow embedding of

    - [Create.__call__]   (datalad/distribution/create.py),
    - [Plugin.__call__]   (datalad/plugin/__init__.py),
    - [_make_github_repos] and [get_repo_url]
      (datalad/distribution/create_sibling_github.py, exercised by
      datalad/distribution/tests/test_create_github.py),

    followed by the properties established about them.

    Python code is embedded as functions in a state-and-exception monad
    over an explicit [World]: what the code reads (working directory,
    directory listings, discoverable superdatasets, the configuration
    store) and what it does (an ordered log of the operations it asks
    its collaborators to perform). *)

From Stdlib Require Import Ascii String.
From stdpp Require Import gmap strings list pretty.

Local Open Scope string_scope.

(** ** Python values *)

Module Py.

(** The argument values the embedded functions inspect dynamically
    ([isinstance], truthiness, [==], [is None]). *)
Inductive pyval :=
| VNone
| VBool (b : bool)
| VInt (n : Z)
| VStr (s : string)
| VList (l : list string).

(** [bool(v)] *)
Definition truthy (v : pyval) : bool :=
  match v with
  | VNone => false
  | VBool b => b
  | VInt n => negb (n =? 0)%Z
  | VStr s => negb (String.eqb s EmptyString)
  | VList l => negb (bool_decide (l = []))
  end.

(** [isinstance(v, bool)] *)
Definition is_bool (v : pyval) : bool :=
  match v with VBool _ => true | _ => false end.

(** [v == s] for a string literal [s] *)
Definition eq_str (v : pyval) (s : string) : bool :=
  match v with VStr s' => String.eqb s' s | _ => false end.

(** [v is None] *)
Definition is_none (v : pyval) : bool :=
  match v with VNone => true | _ => false end.

(** Exceptions, by class, with their message. *)
Inductive exn :=
| ValueError (msg : string)
| ImportError (msg : string)
| AttributeError (msg : string)
| RuntimeError (msg : string)
| AccessDeniedError (msg : string)
| OtherError (cls msg : string).

Definition is_ValueError (e : exn) : bool :=
  match e with ValueError _ => true | _ => false end.

(** [needle in haystack] on strings, as a proposition. *)
Definition mentions (haystack needle : string) : Prop :=
  ∃ pre post, haystack = pre ++ needle ++ post.

End Py.
Export Py.

(** ** The world the commands run in *)

(** A dataset handle: [Dataset(path)]. *)
Record Dataset := mkDataset { ds_path : string }.

(** Operations requested from collaborators, in program order. *)
Inductive event :=
| EvLogInfo (msg : string)
| EvGitRepoCreate (path : string) (git_opts : pyval)
| EvAnnexRepoCreate (path : string)
    (backend version description git_opts annex_opts annex_init_opts : pyval)
| EvConfigAdd (path var : string) (value : pyval)
| EvConfigUnset (path var : string)
| EvRepoAdd (path file : string) (git : bool)
| EvCommit (path msg : string) (allow_empty datalad_msg : bool)
| EvPluginCall (module : string) (ds : Dataset).

Record World := mkWorld {
  (** [getpwd()] *)
  w_cwd : string;
  (** existing directories and what [listdir] returns for them *)
  w_dirs : gmap string (list string);
  (** [Dataset(p).get_superdataset()], where one is discoverable *)
  w_super : gmap string Dataset;
  (** configuration of each dataset, by dataset path and variable;
      variables are multi-valued *)
  w_config : gmap (string * string) (list pyval);
  (** operations performed so far, oldest first *)
  w_log : list event
}.

(** ** State and exception monad *)

Inductive result (A : Type) :=
| Ok (a : A)
| Raise (e : exn).
Arguments Ok {A} a.
Arguments Raise {A} e.

Definition M (A : Type) : Type := World → result A * World.

Definition ret {A} (a : A) : M A := λ w, (Ok a, w).

Definition bind {A B} (c : M A) (k : A → M B) : M B :=
  λ w, match c w with
       | (Ok a, w') => k a w'
       | (Raise e, w') => (Raise e, w')
       end.

Definition raise {A} (e : exn) : M A := λ w, (Raise e, w).

(** reading the world *)
Definition gets {A} (f : World → A) : M A := λ w, (Ok (f w), w).

(** performing an operation of a collaborator (repository, configuration):
    it is logged and the world updated; collaborators are taken to
    complete, their own failures are not modelled *)
Definition perform (ev : event) (upd : World → World) : M unit :=
  λ w, let w' := upd w in
       (Ok tt, mkWorld (w_cwd w') (w_dirs w') (w_super w') (w_config w')
                       (w_log w' ++ [ev])%list).

Notation "'do' x <- c ; k" := (bind c (λ x, k))
  (at level 10, x name, c at level 100, k at level 200).
Notation "'exec' c ; k" := (bind c (λ _, k))
  (at level 10, c at level 100, k at level 200).

(** [for x in xs: body x] *)
Fixpoint for_each {A} (xs : list A) (body : A → M unit) : M unit :=
  match xs with
  | [] => ret tt
  | x :: xs' => exec body x ; for_each xs' body
  end.

(** *** Collaborators of the commands *)

(** [os.path.isdir] *)
Definition isdir (p : string) : M bool :=
  gets (λ w, bool_decide (is_Some (w_dirs w !! p))).

(** [os.listdir] (of an existing directory) *)
Definition listdir (p : string) : M (list string) :=
  gets (λ w, default [] (w_dirs w !! p)).

(** [ds.get_superdataset()] *)
Definition get_superdataset (ds : Dataset) : M (option Dataset) :=
  gets (λ w, w_super w !! ds_path ds).

Definition set_config (f : gmap (string * string) (list pyval) →
                           gmap (string * string) (list pyval))
    (w : World) : World :=
  mkWorld (w_cwd w) (w_dirs w) (w_super w) (f (w_config w)) (w_log w).

(** Modelled from the spec: the configuration manager behind [ds.config]
    (datalad/config.py is not part of the sources).  Section 6 of the
    specification describes the keys as multi-valued and append-only under
    [add], and as removed by [unset]; [var in ds.config] tests presence. *)
Definition config_contains (ds : Dataset) (var : string) : M bool :=
  gets (λ w, bool_decide (is_Some (w_config w !! (ds_path ds, var)))).

Definition config_add (ds : Dataset) (var : string) (value : pyval) : M unit :=
  perform (EvConfigAdd (ds_path ds) var value)
    (set_config (λ c, <[(ds_path ds, var) :=
                          (default [] (c !! (ds_path ds, var)) ++ [value])%list]> c)).

Definition config_unset (ds : Dataset) (var : string) : M unit :=
  perform (EvConfigUnset (ds_path ds) var)
    (set_config (delete (ds_path ds, var))).

(** ** Dataset creation: [Create.__call__] *)

Module Create.

(** The [path] argument: [None], a string, or a [Dataset] instance. *)
Inductive path_arg :=
| PathNone
| PathStr (s : string)
| PathDataset (d : Dataset).

(** [bool(path)]; a [Dataset] instance is always true. *)
Definition path_truthy (p : path_arg) : bool :=
  match p with
  | PathNone => false
  | PathStr s => negb (String.eqb s EmptyString)
  | PathDataset _ => true
  end.

Record Args := mkArgs {
  path : path_arg;
  force : pyval;
  description : pyval;
  add_to_super : pyval;
  name : pyval;
  no_annex : pyval;
  no_commit : pyval;
  annex_version : pyval;
  annex_backend : pyval;
  native_metadata_type : pyval;
  git_opts : pyval;
  annex_opts : pyval;
  annex_init_opts : pyval
}.

(** The signature's defaults. *)
Definition defaults : Args :=
  {| path := PathNone; force := VBool false; description := VNone;
     add_to_super := VBool false; name := VNone; no_annex := VBool false;
     no_commit := VBool false; annex_version := VNone;
     annex_backend := VStr "MD5E"; native_metadata_type := VNone;
     git_opts := VNone; annex_opts := VNone; annex_init_opts := VNone |}.

(** What is handed to [sds.create_subdataset]. *)
Record SubdatasetCall := mkSubdatasetCall {
  sc_path : string;
  sc_force : pyval;
  sc_name : pyval;
  sc_description : pyval;
  sc_no_annex : pyval;
  sc_annex_version : pyval;
  sc_annex_backend : pyval;
  sc_git_opts : pyval;
  sc_annex_opts : pyval;
  sc_annex_init_opts : pyval
}.

(** Code the command calls that lies outside these sources. *)
Record Env := mkEnv {
  (** [repr(v)], used by the [%r] and [repr] in messages *)
  py_repr : pyval → string;
  (** [str(ds)] *)
  dataset_str : Dataset → string;
  (** the property [ds.id] *)
  dataset_id : World → Dataset → string;
  (** the method [sds.create_subdataset(path, ...)] *)
  create_subdataset : Dataset → SubdatasetCall → M Dataset
}.

Definition id_var : string := "datalad.dataset.id".
Definition nativetype_var : string := "datalad.metadata.nativetype".

Definition msg_force (E : Env) (f : pyval) : string :=
  "force should be bool, got " ++ py_repr E f ++
  ".  Did you mean to provide a 'path'?".

Definition msg_not_empty (p : string) : string :=
  "Cannot create dataset in directory " ++ p ++
  " (not empty). Use option 'force' in order to ignore this and enforce creation.".

Definition msg_no_super (E : Env) (ds : Dataset) : string :=
  "No super dataset found for dataset " ++ dataset_str E ds.

Definition msg_unknown_add_to_super (E : Env) (v : pyval) : string :=
  "Do not know how to handle add_to_super=" ++ py_repr E v.

Definition msg_description : string :=
  "Incompatible arguments: cannot specify description for annex repo and declaring no annex repo.".

Definition msg_annex_opts : string :=
  "Incompatible arguments: cannot specify options for annex and declaring no annex repo.".

Definition msg_annex_init_opts : string :=
  "Incompatible arguments: cannot specify options for annex init and declaring no annex repo.".

(** lines 155-166: the dataset the call is about *)
Definition target (a : Args) : M Dataset :=
  if path_truthy (path a) then
    match path a with
    | PathDataset d => ret d
    | PathStr s => ret (mkDataset s)
    | PathNone => do cwd <- gets w_cwd ; ret (mkDataset cwd)
    end
  else
    do cwd <- gets w_cwd ; ret (mkDataset cwd).

(** line 169: [isdir(ds.path) and listdir(ds.path) != [] and not force] *)
Definition refuses_directory (ds : Dataset) (force : pyval) : M bool :=
  do d <- isdir (ds_path ds) ;
  if d then
    do l <- listdir (ds_path ds) ;
    if negb (bool_decide (l = [])) then ret (negb (truthy force))
    else ret false
  else ret false.

(** lines 198-224: the repository is initialised *)
Definition init_repo (a : Args) (ds : Dataset) : M unit :=
  if truthy (no_annex a) then
    if truthy (description a) then raise (ValueError msg_description)
    else if truthy (annex_opts a) then raise (ValueError msg_annex_opts)
    else if truthy (annex_init_opts a) then
      raise (ValueError msg_annex_init_opts)
    else
      exec perform (EvLogInfo ("Creating a new git repo at " ++ ds_path ds)) id ;
      perform (EvGitRepoCreate (ds_path ds) (git_opts a)) id
  else
    exec perform (EvLogInfo ("Creating a new annex repo at " ++ ds_path ds)) id ;
    perform (EvAnnexRepoCreate (ds_path ds) (annex_backend a)
               (annex_version a) (description a) (git_opts a)
               (annex_opts a) (annex_init_opts a)) id.

(** lines 226-230 *)
Definition record_native_types (a : Args) (ds : Dataset) : M unit :=
  if negb (is_none (native_metadata_type a)) then
    let nts := match native_metadata_type a with
               | VList l => VStr <$> l
               | v => [v]
               end in
    for_each nts (λ nt, config_add ds nativetype_var nt)
  else ret tt.

(** lines 232-238 *)
Definition record_id (E : Env) (ds : Dataset) : M unit :=
  do present <- config_contains ds id_var ;
  exec (if present then config_unset ds id_var else ret tt) ;
  do i <- gets (λ w, dataset_id E w ds) ;
  config_add ds id_var (VStr i).

(** lines 198-248: what follows the superdataset handling *)
Definition create_here (E : Env) (a : Args) (ds : Dataset) : M Dataset :=
  exec init_repo a ds ;
  exec record_native_types a ds ;
  exec record_id E ds ;
  exec perform (EvRepoAdd (ds_path ds) ".datalad" true) id ;
  exec (if negb (truthy (no_commit a)) then
          perform (EvCommit (ds_path ds) "Initial commit" true true) id
        else ret tt) ;
  ret ds.

Definition subdataset_call (a : Args) (ds : Dataset) : SubdatasetCall :=
  {| sc_path := ds_path ds; sc_force := force a; sc_name := name a;
     sc_description := description a; sc_no_annex := no_annex a;
     sc_annex_version := annex_version a;
     sc_annex_backend := annex_backend a; sc_git_opts := git_opts a;
     sc_annex_opts := annex_opts a;
     sc_annex_init_opts := annex_init_opts a |}.

(** [Create.__call__], lines 138-248 *)
Definition call (E : Env) (a : Args) : M Dataset :=
  if negb (is_bool (force a)) then
    raise (ValueError (msg_force E (force a)))
  else
    do ds <- target a ;
    do refused <- refuses_directory ds (force a) ;
    if refused then raise (ValueError (msg_not_empty (ds_path ds)))
    else if truthy (add_to_super a) then
      do sds <- get_superdataset ds ;
      match sds with
      | Some sds => create_subdataset E sds (subdataset_call a ds)
      | None =>
          if is_bool (add_to_super a) then
            raise (ValueError (msg_no_super E ds))
          else if eq_str (add_to_super a) "auto" then
            create_here E a ds
          else
            raise (ValueError
                     (msg_unknown_add_to_super E (add_to_super a)))
      end
    else create_here E a ds.

End Create.

(** ** Plugin dispatch: [Plugin.__call__] *)

Module Plugin.

(** The [dataset] argument ([EnsureDataset() | EnsureNone()]). *)
Inductive dataset_arg :=
| DatasetNone
| DatasetPath (p : string)
| DatasetInstance (d : Dataset).

(** The two ways the entry point is called. *)
Inductive call_args :=
| WithArgv (argv : pyval) (output : pyval)
| WithKwargs (output : pyval) (kwargs : gmap string pyval).

(** An imported plugin module; [pm_plugin_call] is its attribute
    [_datalad_plugin_call], when it has one. *)
Record PluginModule := mkPluginModule {
  pm_name : string;
  pm_plugin_call : option (Dataset → call_args → M pyval)
}.

(** Code the command calls that lies outside these sources. *)
Record Env := mkEnv {
  (** [importlib.import_module(name, package=...)] *)
  import_module : string → string → result PluginModule;
  (** [datalad.dochelpers.exc_str] *)
  exc_str : exn → string;
  (** [require_dataset(dataset, check_installed=True, purpose='plugin')] *)
  require_dataset : dataset_arg → M Dataset
}.

(** [plugin_mod.__package__] *)
Definition package : string := "datalad.plugin".

Definition msg_cannot_load (E : Env) (plugin : string) (e : exn) : string :=
  "cannot load plugin '" ++ plugin ++ "': " ++ exc_str E e.

(** lines 77-81: [try: import_module(...) except ImportError as e: ...] *)
Definition load (E : Env) (plugin : string) : M PluginModule :=
  match import_module E ("." ++ plugin) package with
  | Ok pluginmod => ret pluginmod
  | Raise (ImportError m) =>
      raise (ValueError (msg_cannot_load E plugin (ImportError m)))
  | Raise e => raise e
  end.

(** [pluginmod._datalad_plugin_call(ds, ...)] *)
Definition plugin_call (pluginmod : PluginModule) (ds : Dataset)
    (args : call_args) : M pyval :=
  match pm_plugin_call pluginmod with
  | Some entry =>
      exec perform (EvPluginCall (pm_name pluginmod) ds) id ;
      entry ds args
  | None =>
      raise (AttributeError
               ("module '" ++ pm_name pluginmod ++
                "' has no attribute '_datalad_plugin_call'"))
  end.

(** [Plugin.__call__], lines 74-95 *)
Definition call (E : Env) (plugin : string) (dataset : dataset_arg)
    (showpluginhelp : pyval) (output : pyval)
    (kwargs : gmap string pyval) : M (PluginModule * pyval) :=
  do pluginmod <- load E plugin ;
  if truthy showpluginhelp then ret (pluginmod, VNone)
  else
    do ds <- require_dataset E dataset ;
    do result <-
      match kwargs !! "datalad_unparsed_args" with
      | Some argv => plugin_call pluginmod ds (WithArgv argv output)
      | None => plugin_call pluginmod ds (WithKwargs output kwargs)
      end ;
    ret (pluginmod, result).

End Plugin.

(** ** GitHub siblings: [get_repo_url] and [_make_github_repos] *)

Module GitHub.

(** The repository object of the hosted API, exposing both URLs. *)
Record Repo := mkRepo { clone_url : string; ssh_url : string }.

(** Modelled from the spec: the username substitution of [get_repo_url]
    (section 6), in two steps.  [split_scheme] splits [scheme://rest] at
    the first [://]; [with_username] puts [user@] in front of [rest]. *)
Fixpoint split_scheme (url : string) : option (string * string) :=
  match url with
  | String ":"%char (String "/"%char (String "/"%char rest)) =>
      Some (EmptyString, rest)
  | String c url' =>
      match split_scheme url' with
      | Some (scheme, rest) => Some (String c scheme, rest)
      | None => None
      end
  | EmptyString => None
  end.

Definition with_username (url user : string) : string :=
  match split_scheme url with
  | Some (scheme, rest) => scheme ++ "://" ++ user ++ "@" ++ rest
  | None => url
  end.

(** Modelled from the spec: [get_repo_url(repo, access_protocol,
    github_login)] of datalad/distribution/create_sibling_github.py, which
    is not part of the sources.  Section 6: the API object exposes an
    HTTPS and an SSH clone URL, and the URL is selected by protocol with
    an optional username substitution for HTTPS; [test_get_repo_url]
    gives the shape of the result.  Any other protocol is an error. *)
Definition get_repo_url (repo : Repo) (access_protocol : string)
    (github_login : option string) : result string :=
  if String.eqb access_protocol "https" then
    match github_login with
    | Some user =>
        if String.eqb user EmptyString then Ok (clone_url repo)
        else Ok (with_username (clone_url repo) user)
    | None => Ok (clone_url repo)
    end
  else if String.eqb access_protocol "ssh" then Ok (ssh_url repo)
  else Raise (OtherError "KeyError" access_protocol).

(** A candidate login: the entity repositories are created under, and the
    name of the credential it was obtained with (if any). *)
Record Candidate := mkCandidate {
  entity : string;
  cred : option string
}.

(** What one call of [_make_github_repo] can do. *)
Inductive attempt :=
| Created (url : string) (preexisting : bool)
| AuthenticationFailed
| Failed (e : exn).

(** The hosted API, as seen through [_make_github_repo(github_login,
    entity, reponame, existing, access_protocol, dryrun)]. *)
Definition Api : Type := string → string → attempt.

(** Progress through the credentials while a batch is processed. *)
Record Progress := mkProgress {
  (** candidates not yet given up, the current one first *)
  candidates : list Candidate;
  (** whether the current one has been used already *)
  current_used : bool;
  (** number of credentials tried so far *)
  ncredattempts : nat;
  (** every API call made: candidate and repository name *)
  attempts : list (Candidate * string);
  (** warnings logged *)
  warnings : list string;
  (** repositories recorded as failed *)
  failed : list string
}.

Definition msg_auth_failed (c : Candidate) : string :=
  match cred c with
  | Some n => "Authentication failed using " ++ n ++ "."
  | None => "Authentication failed using a token."
  end.

(** Modelled from the spec: the handling of one repository in
    [_make_github_repos] (section 4): attempt with the current credential;
    on an authentication failure, logged, move to the next candidate and
    retry the same repository; with no candidate left the repository is
    recorded as failed.  Any other failure is not handled. *)
Fixpoint create_repo (api : Api) (reponame : string)
    (cands : list Candidate) (used : bool) (n : nat)
    (att : list (Candidate * string)) (warn : list string)
    (marked : list string)
  : result (option (string * bool)) * Progress :=
  match cands with
  | [] =>
      (Ok None, mkProgress [] false n att warn (marked ++ [reponame])%list)
  | c :: cands' =>
      let n' := if used then n else S n in
      let att' := (att ++ [(c, reponame)])%list in
      match api (entity c) reponame with
      | Created url pre =>
          (Ok (Some (url, pre)), mkProgress cands true n' att' warn marked)
      | AuthenticationFailed =>
          create_repo api reponame cands' false n' att'
            (warn ++ [msg_auth_failed c])%list marked
      | Failed e =>
          (Raise e, mkProgress cands true n' att' warn marked)
      end
  end.

(** Modelled from the spec: the loop over the batch in
    [_make_github_repos] (section 4): repositories in input order, the
    successes collected as (dataset, URL, whether pre-existing). *)
Fixpoint create_repos (api : Api) (rinfo : list (Dataset * string))
    (p : Progress) (res : list (Dataset * string * bool))
  : result (list (Dataset * string * bool)) * Progress :=
  match rinfo with
  | [] => (Ok res, p)
  | (ds, reponame) :: rinfo' =>
      match create_repo api reponame (candidates p) (current_used p)
              (ncredattempts p) (attempts p) (warnings p) (failed p) with
      | (Ok (Some (url, pre)), p') =>
          create_repos api rinfo' p' (res ++ [(ds, url, pre)])%list
      | (Ok None, p') => create_repos api rinfo' p' res
      | (Raise e, p') => (Raise e, p')
      end
  end.

Definition msg_access_denied (n : nat) : string :=
  "Tried " ++ pretty n ++
  " times to get authenticated access to GitHub but kept failing".

Definition msg_did_not_try : string :=
  "Did not even try to create a repo on github".

(** Modelled from the spec: [_make_github_repos(github_login,
    github_passwd, github_organization, rinfo, existing, access_protocol,
    dryrun)] of datalad/distribution/create_sibling_github.py, which is
    not part of the sources.  Section 4, credential retry policy:
    repositories are processed in input order, each attempted with the
    current credential; an authentication failure advances to the next
    candidate and retries the same repository; a repository for which no
    credential succeeds is recorded as failed; after the batch, if every
    attempt failed a hard error naming the number of credentials tried is
    raised, otherwise the per-repository successes are returned.
    [test__make_github_repos] adds that an error other than the
    access-denied one is raised when no attempt was made at all.
    [cands] is what [_gen_github_entity] yields. *)
Definition make_github_repos (api : Api) (cands : list Candidate)
    (rinfo : list (Dataset * string))
  : result (list (Dataset * string * bool)) * Progress :=
  match create_repos api rinfo (mkProgress cands false 0 [] [] []) [] with
  | (Ok [], p) =>
      match failed p with
      | [] => (Ok [], p)
      | _ :: _ =>
          if bool_decide (ncredattempts p = 0)
          then (Raise (RuntimeError msg_did_not_try), p)
          else (Raise (AccessDeniedError
                         (msg_access_denied (ncredattempts p))), p)
      end
  | (r, p) => (r, p)
  end.

End GitHub.

(** ** Reporting a creation: [Create.result_renderer_cmdline] *)

Module CreateRender.

(** The result handed to the renderer: [None], a [Dataset], or anything
    else. *)
Inductive res :=
| ResNone
| ResDataset (d : Dataset)
| ResOther.

(** create.py, lines 250-256; the texts given to [ui.message], in order *)
Definition result_renderer_cmdline (r : res) : list string :=
  match r with
  | ResNone => ["Nothing was created"]
  | ResDataset d => ["Created dataset at " ++ ds_path d ++ "."]
  | ResOther => []
  end.

End CreateRender.

(** ** The plugins on disk: [_get_plugin_names] *)

Module PluginFiles.

(** [c in s] for a character [c] *)
Fixpoint has_char (c : ascii) (s : string) : bool :=
  match s with
  | EmptyString => false
  | String c' s' => Ascii.eqb c' c || has_char c s'
  end.

(** [os.path.basename(p)]: what follows the last [/] *)
Fixpoint basename (p : string) : string :=
  match p with
  | EmptyString => EmptyString
  | String c p' =>
      if has_char "/" p' then basename p'
      else if Ascii.eqb c "/" then p'
      else p
  end.

(** [s.endswith(suffix)] *)
Fixpoint endswith (s suffix : string) : bool :=
  String.eqb s suffix ||
  match s with
  | EmptyString => false
  | String _ s' => endswith s' suffix
  end.

(** [s[:n]] *)
Fixpoint take (n : nat) (s : string) : string :=
  match n, s with
  | S n', String c s' => String c (take n' s')
  | _, _ => EmptyString
  end.

(** [s[:-3]] *)
Definition drop_last3 (s : string) : string :=
  take (String.length s - 3) s.

(** [os.path.join(a, b)] for a relative [b] *)
Definition opj (a b : string) : string :=
  if String.eqb a EmptyString then b
  else if endswith a "/" then a ++ b
  else a ++ "/" ++ b.

(** plugin/__init__.py, lines 33-37; [basepath] is [dirname(__file__)] and
    [glob] the function of that name, answering from the file system *)
Definition get_plugin_names (basepath : string)
    (glob : string → list string) : list string :=
  (λ e, drop_last3 (basename e)) <$>
  List.filter (λ e, negb (endswith e "__init__.py"))
    (glob (opj basepath "*.py")).

End PluginFiles.

(** ** Showing a plugin's help: [Plugin.result_renderer_cmdline] *)

Module PluginRender.

(** What [_datalad_get_plugin_help()] returns: a string, or a tuple of a
    string and replacement pairs. *)
Inductive plugin_help :=
| HelpText (help : string)
| HelpWithReplacement (help : string) (replacement : list (string * string)).

(** Code outside these sources. *)
Record Env := mkEnv {
  (** the attribute [_datalad_get_plugin_help] of a module, called, where
      the module has it *)
  get_plugin_help : Plugin.PluginModule → option plugin_help;
  (** [str(pluginmod)] *)
  module_str : Plugin.PluginModule → string
}.

(** What the renderer writes. *)
Inductive output :=
| Printed (text : string)
| LoggedError (msg : string).

(** [' ' * n] *)
Fixpoint spaces (n : nat) : string :=
  match n with
  | O => EmptyString
  | S n' => String " " (spaces n')
  end.

(** [s.replace(EmptyString, new)]: [new] before every character and at
    the end *)
Fixpoint insert_around (new s : string) : string :=
  match s with
  | EmptyString => new
  | String c s' => new ++ String c (insert_around new s')
  end.

(** [s.replace(old, new)] for a non-empty [old], scanning from the left;
    [skip] counts the characters of the occurrence just replaced that are
    still to be passed over *)
Fixpoint replace_from (old new : string) (skip : nat) (s : string) : string :=
  match s with
  | EmptyString => EmptyString
  | String c s' =>
      match skip with
      | S k => replace_from old new k s'
      | O =>
          if String.prefix old s
          then new ++ replace_from old new (String.length old - 1) s'
          else String c (replace_from old new 0 s')
      end
  end.

(** [s.replace(old, new)] *)
Definition py_replace (s old new : string) : string :=
  match old with
  | EmptyString => insert_around new s
  | _ => replace_from old new 0 s
  end.

(** line 109: [out_s + ' ' * max(0, len(in_s) - len(out_s))] *)
Definition padded (in_s out_s : string) : string :=
  out_s ++
  spaces (Z.to_nat (Z.max 0 (Z.of_nat (String.length in_s) -
                             Z.of_nat (String.length out_s)))).

(** lines 108-109: the loop over the replacement pairs *)
Definition apply_replacement (help : string)
    (replacement : list (string * string)) : string :=
  fold_left (λ help r, py_replace help r.1 (padded r.1 r.2)) replacement help.

(** plugin/__init__.py, lines 97-113 *)
Definition result_renderer_cmdline (R : Env)
    (res : Plugin.PluginModule * pyval) (showpluginhelp : pyval)
  : list output :=
  let (pluginmod, result) := res in
  if truthy showpluginhelp then
    match get_plugin_help R pluginmod with
    | None =>
        [LoggedError ("plugin '" ++ module_str R pluginmod ++
                      "' does not provide help")]
    | Some h =>
        let (help, replacement) :=
          match h with
          | HelpText help => (help, [])
          | HelpWithReplacement help replacement => (help, replacement)
          end in
        let help :=
          if negb (bool_decide (replacement = []))
          then apply_replacement help replacement
          else help in
        [Printed help]
    end
  else [].

End PluginRender.

(** ** Vocabulary of the statements *)

(** The world after some more operations were performed. *)
Definition log_append (w : World) (evs : list event) : World :=
  mkWorld (w_cwd w) (w_dirs w) (w_super w) (w_config w) (w_log w ++ evs)%list.

(** [p] is an existing directory with at least one entry. *)
Definition non_empty_dir (w : World) (p : string) : bool :=
  match w_dirs w !! p with
  | Some l => negb (bool_decide (l = []))
  | None => false
  end.

(** An annex-specific option is given together with [no_annex]. *)
Definition annex_conflict (a : Create.Args) : bool :=
  truthy (Create.no_annex a) &&
  (truthy (Create.description a) || truthy (Create.annex_opts a) ||
   truthy (Create.annex_init_opts a)).

(** The call is handed over to [create_subdataset] of a superdataset. *)
Definition delegated (a : Create.Args) (w : World) (ds : Dataset) : bool :=
  truthy (Create.add_to_super a) &&
  bool_decide (is_Some (w_super w !! ds_path ds)).

(** [ev] initialises a repository at [p]. *)
Definition is_repo_create (p : string) (ev : event) : bool :=
  match ev with
  | EvGitRepoCreate p' _ | EvAnnexRepoCreate p' _ _ _ _ _ _ => String.eqb p' p
  | _ => false
  end.

(** [ev] writes or removes the variable [var] of the dataset at [p]. *)
Definition touches (p var : string) (ev : event) : bool :=
  match ev with
  | EvConfigAdd p' var' _ | EvConfigUnset p' var' =>
      String.eqb p' p && String.eqb var' var
  | _ => false
  end.

(** The same call with another [add_to_super]. *)
Definition with_add_to_super (v : pyval) (a : Create.Args) : Create.Args :=
  {| Create.path := Create.path a; Create.force := Create.force a;
     Create.description := Create.description a;
     Create.add_to_super := v; Create.name := Create.name a;
     Create.no_annex := Create.no_annex a;
     Create.no_commit := Create.no_commit a;
     Create.annex_version := Create.annex_version a;
     Create.annex_backend := Create.annex_backend a;
     Create.native_metadata_type := Create.native_metadata_type a;
     Create.git_opts := Create.git_opts a;
     Create.annex_opts := Create.annex_opts a;
     Create.annex_init_opts := Create.annex_init_opts a |}.

(** The operations on [datalad.dataset.id] of one creation, started in [w]:
    an [unset] when the variable was on record, then one [add]. *)
Definition id_events (w : World) (ds : Dataset) (i : string) : list event :=
  ((if bool_decide (is_Some (w_config w !! (ds_path ds, Create.id_var)))
    then [EvConfigUnset (ds_path ds) Create.id_var] else []) ++
   [EvConfigAdd (ds_path ds) Create.id_var (VStr i)])%list.

(** [create_subdataset] rejects a description for a plain Git repository,
    as [Create.__call__] does. *)
Definition subdataset_validates (E : Create.Env) : Prop :=
  ∀ sds c w,
    truthy (Create.sc_no_annex c) = true →
    truthy (Create.sc_description c) = true →
    ∃ msg w', Create.create_subdataset E sds c w = (Raise (ValueError msg), w').

(** What [c] obtained for the batch item [r] (its dataset, the URL, whether
    the repository was there already), where it created the repository. *)
Definition created_with (api : GitHub.Api) (c : GitHub.Candidate)
    (r : Dataset * string) : Dataset * string * bool :=
  match api (GitHub.entity c) r.2 with
  | GitHub.Created url pre => (r.1, url, pre)
  | _ => (r.1, r.2, false)
  end.

(** The calls made for the first item of the batch with each of [cs]. *)
Definition first_item_with (cs : list GitHub.Candidate)
    (rinfo : list (Dataset * string)) : list (GitHub.Candidate * string) :=
  match rinfo with
  | [] => []
  | r :: _ => (λ c, (c, r.2)) <$> cs
  end.

(** The values [native_metadata_type] stands for (lines 226-229). *)
Definition native_values (a : Create.Args) : list pyval :=
  match Create.native_metadata_type a with
  | VNone => []
  | VList l => VStr <$> l
  | v => [v]
  end.

(** The configuration after [vs] were added to the variable at [key]. *)
Definition config_appended (key : string * string) (vs : list pyval)
    (cfg : gmap (string * string) (list pyval))
  : gmap (string * string) (list pyval) :=
  match vs with
  | [] => cfg
  | _ => <[key := (default [] (cfg !! key) ++ vs)%list]> cfg
  end.

(** The repository a creation asks for: plain Git under [no_annex], an
    annex otherwise. *)
Definition repo_event (a : Create.Args) (ds : Dataset) : event :=
  if truthy (Create.no_annex a)
  then EvGitRepoCreate (ds_path ds) (Create.git_opts a)
  else EvAnnexRepoCreate (ds_path ds) (Create.annex_backend a)
         (Create.annex_version a) (Create.description a)
         (Create.git_opts a) (Create.annex_opts a)
         (Create.annex_init_opts a).

(** The commit of a creation, unless [no_commit]. *)
Definition commit_events (a : Create.Args) (ds : Dataset) : list event :=
  if truthy (Create.no_commit a) then []
  else [EvCommit (ds_path ds) "Initial commit" true true].

(** [ev] initialises a repository, wherever. *)
Definition creates_repo (ev : event) : bool :=
  match ev with
  | EvGitRepoCreate _ _ | EvAnnexRepoCreate _ _ _ _ _ _ _ => true
  | _ => false
  end.

(** [ev] writes to the configuration. *)
Definition writes_config (ev : event) : bool :=
  match ev with
  | EvConfigAdd _ _ _ | EvConfigUnset _ _ => true
  | _ => false
  end.

(** [ev] stages or commits. *)
Definition stages_or_commits (ev : event) : bool :=
  match ev with
  | EvRepoAdd _ _ _ | EvCommit _ _ _ _ => true
  | _ => false
  end.

(** The same call with another [path]. *)
Definition with_path (p : Create.path_arg) (a : Create.Args) : Create.Args :=
  {| Create.path := p; Create.force := Create.force a;
     Create.description := Create.description a;
     Create.add_to_super := Create.add_to_super a;
     Create.name := Create.name a;
     Create.no_annex := Create.no_annex a;
     Create.no_commit := Create.no_commit a;
     Create.annex_version := Create.annex_version a;
     Create.annex_backend := Create.annex_backend a;
     Create.native_metadata_type := Create.native_metadata_type a;
     Create.git_opts := Create.git_opts a;
     Create.annex_opts := Create.annex_opts a;
     Create.annex_init_opts := Create.annex_init_opts a |}.

(** The same call with other [no_commit] and [native_metadata_type]. *)
Definition with_commit_and_native (nc nt : pyval) (a : Create.Args)
  : Create.Args :=
  {| Create.path := Create.path a; Create.force := Create.force a;
     Create.description := Create.description a;
     Create.add_to_super := Create.add_to_super a;
     Create.name := Create.name a;
     Create.no_annex := Create.no_annex a;
     Create.no_commit := nc;
     Create.annex_version := Create.annex_version a;
     Create.annex_backend := Create.annex_backend a;
     Create.native_metadata_type := nt;
     Create.git_opts := Create.git_opts a;
     Create.annex_opts := Create.annex_opts a;
     Create.annex_init_opts := Create.annex_init_opts a |}.

(** The operations of a creation that runs to its end, in order; [i] is
    the identifier recorded. *)
Definition creation_events (a : Create.Args) (ds : Dataset) (w : World)
    (i : string) : list event :=
  ([EvLogInfo (if truthy (Create.no_annex a)
               then "Creating a new git repo at " ++ ds_path ds
               else "Creating a new annex repo at " ++ ds_path ds);
    repo_event a ds] ++
   (EvConfigAdd (ds_path ds) Create.nativetype_var <$> native_values a) ++
   id_events w ds i ++
   [EvRepoAdd (ds_path ds) ".datalad" true] ++
   commit_events a ds)%list.

(** The file [d/n.py] of the module [n] in the directory [d]. *)
Definition module_file (f : string * string) : string :=
  f.1 ++ String "/" (f.2 ++ ".py").

(** ** Concrete environments, used to exercise the statements *)

Module Examples.

Definition repr (v : pyval) : string :=
  match v with
  | VNone => "None"
  | VBool true => "True"
  | VBool false => "False"
  | VInt n => pretty n
  | VStr s => "'" ++ s ++ "'"
  | VList l => "[" ++ String.concat ", " l ++ "]"
  end.

Definition create_env : Create.Env :=
  {| Create.py_repr := repr;
     Create.dataset_str := λ d, "<Dataset path=" ++ ds_path d ++ ">";
     Create.dataset_id := λ w d, "uuid-" ++ pretty (length (w_log w));
     Create.create_subdataset := λ sds c,
       if truthy (Create.sc_no_annex c) && truthy (Create.sc_description c)
       then raise (ValueError Create.msg_description)
       else ret (mkDataset (Create.sc_path c)) |}.

(** [/data] holds a file and has an identifier on record; [/super/sub]
    lies in the dataset [/super]; [/fresh] does not exist. *)
Definition world : World :=
  {| w_cwd := "/home/me";
     w_dirs := {[ "/data" := ["file.txt"] ]};
     w_super := {[ "/super/sub" := mkDataset "/super" ]};
     w_config := {[ ("/data", Create.id_var) := [VStr "old-id"] ]};
     w_log := [] |}.

(** [create(p, force=..., description=..., add_to_super=...,
    no_annex=...)], the other arguments at their defaults *)
Definition args (p : string)
    (force description add_to_super no_annex : pyval) : Create.Args :=
  {| Create.path := Create.PathStr p; Create.force := force;
     Create.description := description;
     Create.add_to_super := add_to_super;
     Create.name := VNone; Create.no_annex := no_annex;
     Create.no_commit := VBool false; Create.annex_version := VNone;
     Create.annex_backend := VStr "MD5E";
     Create.native_metadata_type := VNone; Create.git_opts := VNone;
     Create.annex_opts := VNone; Create.annex_init_opts := VNone |}.

(** Re-creating the dataset at [/data]: [create('/data', force=True)] *)
Definition recreate : Create.Args :=
  args "/data" (VBool true) VNone (VBool false) (VBool false).

Definition recreated : World :=
  snd (Create.call create_env recreate world).

(** A plugin whose entry point returns its [output] argument. *)
Definition export_tarball : Plugin.PluginModule :=
  {| Plugin.pm_name := "datalad.plugin.export_tarball";
     Plugin.pm_plugin_call := Some (λ ds args,
       match args with
       | Plugin.WithArgv _ output | Plugin.WithKwargs output _ => ret output
       end) |}.

(** One plugin is installed; no dataset can be found. *)
Definition plugin_env : Plugin.Env :=
  {| Plugin.import_module := λ name package,
       if String.eqb name ".export_tarball" then Ok export_tarball
       else Raise (ImportError ("No module named '" ++ package ++ name ++ "'"));
     Plugin.exc_str := λ e,
       match e with
       | ValueError m | ImportError m | AttributeError m | RuntimeError m
       | AccessDeniedError m | OtherError _ m => m
       end;
     Plugin.require_dataset := λ _,
       raise (OtherError "NoDatasetArgumentFound" "No dataset found") |}.

(** The fixtures of [test_get_repo_url] and [test__make_github_repos]. *)
Definition repo1 : GitHub.Repo :=
  GitHub.mkRepo "https://github.com/user1/repo" "git@github.com/user1/repo1".

Definition three_candidates : list GitHub.Candidate :=
  [GitHub.mkCandidate "entity1" (Some "cred1");
   GitHub.mkCandidate "entity2" (Some "cred2");
   GitHub.mkCandidate "entity3" (Some "cred3")].

Definition batch : list (Dataset * string) :=
  [(mkDataset "/fakeds1", "fakeds1"); (mkDataset "/fakeds2", "fakeds2")].

(** [entity1] is refused, any other entity may create repositories. *)
Definition first_refused : GitHub.Api :=
  λ entity reponame,
    if String.eqb entity "entity1" then GitHub.AuthenticationFailed
    else GitHub.Created reponame false.

Definition all_refused : GitHub.Api :=
  λ _ _, GitHub.AuthenticationFailed.

(** [create('/fresh', native_metadata_type=['bids', 'dicom'])] *)
Definition tagged : Create.Args :=
  with_commit_and_native (VBool false) (VList ["bids"; "dicom"])
    (args "/fresh" (VBool false) VNone (VBool false) (VBool false)).

Definition tagged_world : World :=
  snd (Create.call create_env tagged world).

(** [create('/super/sub', add_to_super=True)] *)
Definition registered : Create.Args :=
  args "/super/sub" (VBool false) VNone (VBool true) (VBool false).

(** An installation whose plugin modules fail to load for another reason
    than being absent. *)
Definition broken_env : Plugin.Env :=
  {| Plugin.import_module := λ name package,
       Raise (OtherError "SyntaxError" "invalid syntax");
     Plugin.exc_str := Plugin.exc_str plugin_env;
     Plugin.require_dataset := Plugin.require_dataset plugin_env |}.

(** As [plugin_env], with the dataset [/data] found. *)
Definition dataset_env : Plugin.Env :=
  {| Plugin.import_module := Plugin.import_module plugin_env;
     Plugin.exc_str := Plugin.exc_str plugin_env;
     Plugin.require_dataset := λ _, ret (mkDataset "/data") |}.

(** The help of [export_tarball], with one placeholder to fill in. *)
Definition render_env : PluginRender.Env :=
  {| PluginRender.get_plugin_help := λ pluginmod,
       if String.eqb (Plugin.pm_name pluginmod) "datalad.plugin.export_tarball"
       then Some (PluginRender.HelpWithReplacement
                    "usage: %(prog)s [-h] [output]"
                    [("%(prog)s", "tarball")])
       else None;
     PluginRender.module_str := Plugin.pm_name |}.

End Examples.

(** * Properties *)

(** ** Running the monad *)

Lemma world_eta w :
  mkWorld (w_cwd w) (w_dirs w) (w_super w) (w_config w) (w_log w) = w.
Proof. by destruct w. Qed.

Lemma log_append_nil w : log_append w [] = w.
Proof. unfold log_append. rewrite app_nil_r. apply world_eta. Qed.

Lemma log_append_app w evs evs' :
  log_append (log_append w evs) evs' = log_append w (evs ++ evs')%list.
Proof. unfold log_append; simpl. by rewrite app_assoc. Qed.

Lemma perform_id ev w : perform ev id w = (Ok tt, log_append w [ev]).
Proof. reflexivity. Qed.

Lemma bind_ok {A B} (c : M A) (k : A → M B) w a w' :
  c w = (Ok a, w') → bind c k w = k a w'.
Proof. unfold bind. by intros ->. Qed.

Lemma bind_raise {A B} (c : M A) (k : A → M B) w e w' :
  c w = (Raise e, w') → bind c k w = (Raise e, w').
Proof. unfold bind. by intros ->. Qed.

(** ** Dataset creation *)

Section CreateFacts.

Import Create.

Variable E : Create.Env.

Lemma target_ok a w : ∃ ds, target a w = (Ok ds, w).
Proof.
  unfold target. destruct (path a) as [|s|d]; simpl.
  - by eexists.
  - destruct (negb _); by eexists.
  - by eexists.
Qed.

Lemma refuses_directory_eq ds f w :
  refuses_directory ds f w =
  (Ok (non_empty_dir w (ds_path ds) && negb (truthy f)), w).
Proof.
  unfold refuses_directory, non_empty_dir, bind, isdir, listdir, gets, ret.
  destruct (w_dirs w !! ds_path ds) as [l|] eqn:Hl.
  - rewrite bool_decide_eq_true_2; [|by eexists].
    rewrite Hl; simpl. by destruct (bool_decide (l = [])).
  - rewrite bool_decide_eq_false_2; [done|]. by intros [? ?].
Qed.

Lemma init_repo_conflict a ds w :
  annex_conflict a = true →
  ∃ msg, init_repo a ds w = (Raise (ValueError msg), w).
Proof.
  unfold annex_conflict, init_repo.
  destruct (truthy (no_annex a)); [|done]; simpl.
  destruct (truthy (description a)); [by eexists|].
  destruct (truthy (annex_opts a)); [by eexists|].
  destruct (truthy (annex_init_opts a)); [by eexists|done].
Qed.

Lemma init_repo_ok a ds w :
  annex_conflict a = false →
  ∃ info ev, init_repo a ds w = (Ok tt, log_append w [EvLogInfo info; ev])
             ∧ is_repo_create (ds_path ds) ev = true.
Proof.
  unfold annex_conflict, init_repo. intros Hc.
  destruct (truthy (no_annex a)); simpl in Hc.
  - destruct (truthy (description a)); [done|].
    destruct (truthy (annex_opts a)); [done|].
    destruct (truthy (annex_init_opts a)); [done|].
    do 2 eexists. split.
    + unfold bind. rewrite perform_id. cbn beta iota.
      by rewrite perform_id, log_append_app.
    + apply String.eqb_refl.
  - do 2 eexists. split.
    + unfold bind. rewrite perform_id. cbn beta iota.
      by rewrite perform_id, log_append_app.
    + apply String.eqb_refl.
Qed.

Lemma touches_native p p' v :
  touches p id_var (EvConfigAdd p' nativetype_var v) = false.
Proof.
  unfold touches.
  replace (String.eqb nativetype_var id_var) with false by reflexivity.
  apply andb_false_r.
Qed.

Lemma native_key_ne (p : string) : (p, nativetype_var) ≠ (p, id_var).
Proof. intros [=]. Qed.

(** The loop of lines 229-230 appends to one variable only. *)
Lemma add_native_types ds nts w :
  ∃ cfg evs,
    for_each nts (λ nt, config_add ds nativetype_var nt) w =
    (Ok tt, mkWorld (w_cwd w) (w_dirs w) (w_super w) cfg
              (w_log w ++ evs)%list)
    ∧ cfg !! (ds_path ds, id_var) = w_config w !! (ds_path ds, id_var)
    ∧ List.filter (touches (ds_path ds) id_var) evs = []
    ∧ List.filter (is_repo_create (ds_path ds)) evs = [].
Proof.
  revert w. induction nts as [|nt nts IH]; intros w; simpl.
  - exists (w_config w), []. rewrite app_nil_r. by rewrite world_eta.
  - unfold bind at 1. unfold config_add at 1, perform, set_config; simpl.
    match goal with |- context [for_each nts _ ?w1] =>
      destruct (IH w1) as (cfg & evs & -> & Hcfg & Hf & Hr) end.
    simpl in *. eexists cfg, (_ :: evs). split; [|split; [|split]].
    + by rewrite <- app_assoc.
    + rewrite Hcfg. apply lookup_insert_ne, native_key_ne.
    + cbn [List.filter]. by rewrite touches_native.
    + done.
Qed.

Lemma record_native_types_ok a ds w :
  ∃ cfg evs,
    record_native_types a ds w =
    (Ok tt, mkWorld (w_cwd w) (w_dirs w) (w_super w) cfg
              (w_log w ++ evs)%list)
    ∧ cfg !! (ds_path ds, id_var) = w_config w !! (ds_path ds, id_var)
    ∧ List.filter (touches (ds_path ds) id_var) evs = []
    ∧ List.filter (is_repo_create (ds_path ds)) evs = [].
Proof.
  unfold record_native_types.
  destruct (negb (is_none (native_metadata_type a))).
  - apply add_native_types.
  - exists (w_config w), []. rewrite app_nil_r. by rewrite world_eta.
Qed.

Lemma id_events_touch w ds i :
  List.filter (touches (ds_path ds) id_var) (id_events w ds i) =
  id_events w ds i.
Proof.
  unfold id_events. destruct (bool_decide _); simpl;
    by rewrite !String.eqb_refl.
Qed.

Lemma record_id_ok ds w :
  ∃ w1 cfg,
    record_id E ds w =
    (Ok tt, mkWorld (w_cwd w) (w_dirs w) (w_super w) cfg
              (w_log w ++ id_events w ds (dataset_id E w1 ds))%list)
    ∧ cfg !! (ds_path ds, id_var) = Some [VStr (dataset_id E w1 ds)]
    ∧ w_config w1 !! (ds_path ds, id_var) = None.
Proof.
  unfold record_id, id_events, bind, config_contains, config_unset,
    config_add, gets, perform, set_config, ret.
  destruct (w_config w !! (ds_path ds, id_var)) as [old|] eqn:Hold.
  - rewrite bool_decide_eq_true_2; [|by eexists]. cbn beta iota.
    eexists (mkWorld _ _ _ _ _), _. split; [|split].
    + cbn [w_cwd w_dirs w_super w_config w_log].
      rewrite <- app_assoc. reflexivity.
    + cbn [w_config]. rewrite lookup_insert_eq, lookup_delete_eq. done.
    + cbn [w_config]. apply lookup_delete_eq.
  - rewrite bool_decide_eq_false_2; [|by intros [? ?]]. cbn beta iota.
    exists w. eexists. split; [|split].
    + reflexivity.
    + cbn [w_config]. rewrite lookup_insert_eq, Hold. done.
    + done.
Qed.

(** Without a conflict of options, lines 198-248 run to the end. *)
Lemma create_here_ok a ds w :
  annex_conflict a = false →
  ∃ w' w1 pre post,
    create_here E a ds w = (Ok ds, w')
    ∧ w_log w' =
      (w_log w ++ pre ++ id_events w ds (dataset_id E w1 ds) ++ post)%list
    ∧ List.filter (touches (ds_path ds) id_var) pre = []
    ∧ List.filter (touches (ds_path ds) id_var) post = []
    ∧ (∃ ev, ev ∈ pre ∧ is_repo_create (ds_path ds) ev = true)
    ∧ w_config w' !! (ds_path ds, id_var) =
      Some [VStr (dataset_id E w1 ds)]
    ∧ w_config w1 !! (ds_path ds, id_var) = None.
Proof.
  intros Hc. unfold create_here.
  destruct (init_repo_ok a ds w Hc) as (info & ev & Hinit & Hev).
  rewrite (bind_ok _ _ _ _ _ Hinit).
  destruct (record_native_types_ok a ds (log_append w [EvLogInfo info; ev]))
    as (cfg & evs & Hnat & Hcfg & Hft & _).
  rewrite (bind_ok _ _ _ _ _ Hnat).
  match type of Hnat with _ = (_, ?w2) =>
    destruct (record_id_ok ds w2) as (w1 & cfg' & Hid & Hcfg' & Hw1) end.
  rewrite (bind_ok _ _ _ _ _ Hid).
  rewrite (bind_ok _ _ _ _ _ (perform_id _ _)).
  assert (Hev' : id_events
            {| w_cwd := w_cwd (log_append w [EvLogInfo info; ev]);
               w_dirs := w_dirs (log_append w [EvLogInfo info; ev]);
               w_super := w_super (log_append w [EvLogInfo info; ev]);
               w_config := cfg;
               w_log := (w_log (log_append w [EvLogInfo info; ev]) ++ evs)%list |}
            ds (dataset_id E w1 ds) = id_events w ds (dataset_id E w1 ds)).
  { unfold id_events. cbn [w_config]. by rewrite Hcfg. }
  rewrite Hev' in *. clear Hev'.
  assert (Hpre : List.filter (touches (ds_path ds) id_var)
                   ([EvLogInfo info; ev] ++ evs) = []).
  { rewrite List.filter_app, Hft. destruct ev; simpl in *; done. }
  assert (Hin : ∃ ev0, ev0 ∈ ([EvLogInfo info; ev] ++ evs)%list
                       ∧ is_repo_create (ds_path ds) ev0 = true).
  { exists ev. split; [set_solver|done]. }
  destruct (negb (truthy (no_commit a))).
  - rewrite (bind_ok _ _ _ _ _ (perform_id _ _)). unfold ret.
    eexists _, w1, _,
      [EvRepoAdd (ds_path ds) ".datalad" true;
       EvCommit (ds_path ds) "Initial commit" true true].
    split; [reflexivity|]. repeat split; try done.
    cbn [log_append w_log]. by rewrite <- !app_assoc.
  - unfold bind, ret.
    eexists _, w1, _, [EvRepoAdd (ds_path ds) ".datalad" true].
    split; [reflexivity|]. repeat split; try done.
    cbn [log_append w_log]. by rewrite <- !app_assoc.
Qed.

Lemma create_here_conflict a ds w :
  annex_conflict a = true →
  ∃ msg, create_here E a ds w = (Raise (ValueError msg), w).
Proof.
  intros Hc. destruct (init_repo_conflict a ds w Hc) as [msg Hm].
  exists msg. unfold create_here. by rewrite (bind_raise _ _ _ _ _ Hm).
Qed.

(** The control flow of [Create.__call__] once [force] is a [bool]. *)
Lemma call_eq a w ds :
  is_bool (force a) = true →
  target a w = (Ok ds, w) →
  call E a w =
  if non_empty_dir w (ds_path ds) && negb (truthy (force a)) then
    (Raise (ValueError (msg_not_empty (ds_path ds))), w)
  else if truthy (add_to_super a) then
    match w_super w !! ds_path ds with
    | Some sds => create_subdataset E sds (subdataset_call a ds) w
    | None =>
        if is_bool (add_to_super a) then
          (Raise (ValueError (msg_no_super E ds)), w)
        else if eq_str (add_to_super a) "auto" then create_here E a ds w
        else (Raise (ValueError
                       (msg_unknown_add_to_super E (add_to_super a))), w)
    end
  else create_here E a ds w.
Proof.
  intros Hb Ht. unfold call. rewrite Hb. cbn [negb].
  rewrite (bind_ok _ _ _ _ _ Ht).
  rewrite (bind_ok _ _ _ _ _ (refuses_directory_eq _ _ _)).
  destruct (_ && _); [done|].
  destruct (truthy (add_to_super a)); [|done].
  unfold bind, get_superdataset, gets.
  destruct (w_super w !! ds_path ds); [done|].
  destruct (is_bool (add_to_super a)); [done|].
  by destruct (eq_str (add_to_super a) "auto").
Qed.

Lemma call_force_not_bool a w :
  is_bool (force a) = false →
  call E a w = (Raise (ValueError (msg_force E (force a))), w).
Proof. intros Hb. unfold call. by rewrite Hb. Qed.

(** A call that is not handed over to a superdataset either runs
    lines 198-248 or raises [ValueError] at once. *)
Lemma call_here a w ds :
  is_bool (force a) = true →
  target a w = (Ok ds, w) →
  delegated a w ds = false →
  call E a w = create_here E a ds w
  ∨ ∃ msg, call E a w = (Raise (ValueError msg), w).
Proof.
  intros Hb Ht Hd. rewrite (call_eq a w ds Hb Ht).
  destruct (_ && _); [right; by eexists|].
  unfold delegated in Hd.
  destruct (truthy (add_to_super a)); [|by left].
  destruct (w_super w !! ds_path ds) as [sds|].
  { rewrite bool_decide_eq_true_2 in Hd; [done|by eexists]. }
  destruct (is_bool (add_to_super a)); [right; by eexists|].
  destruct (eq_str (add_to_super a) "auto"); [by left|right; by eexists].
Qed.

Lemma target_with_add_to_super v a w :
  target (with_add_to_super v a) w = target a w.
Proof. reflexivity. Qed.

End CreateFacts.

(** ** Dataset creation: the non-empty target directory *)

(** C3, as the code has it.  In an existing non-empty directory a call
    with [force=False] raises [ValueError] and leaves the world as it was,
    so no repository is initialised.  With [force=True] the directory is
    accepted; the call then returns the dataset, with its repository
    initialised, provided nothing is to be registered ([add_to_super] not
    set, or ['auto'] with no superdataset around) and no annex-specific
    option is combined with [no_annex]. *)
Theorem create_in_non_empty_directory (E : Create.Env) a w ds :
  Create.target a w = (Ok ds, w) →
  non_empty_dir w (ds_path ds) = true →
  (Create.force a = VBool false →
   Create.call E a w =
   (Raise (ValueError (Create.msg_not_empty (ds_path ds))), w))
  ∧ (Create.force a = VBool true →
     truthy (Create.add_to_super a) = false
     ∨ (Create.add_to_super a = VStr "auto"
        ∧ w_super w !! ds_path ds = None) →
     annex_conflict a = false →
     ∃ w', Create.call E a w = (Ok ds, w')
           ∧ ∃ ev, ev ∈ w_log w' ∧ is_repo_create (ds_path ds) ev = true).
Proof.
  intros Ht Hne. split.
  - intros Hf. rewrite (call_eq E a w ds); [|by rewrite Hf|done].
    by rewrite Hne, Hf.
  - intros Hf Hsup Hc. rewrite (call_eq E a w ds); [|by rewrite Hf|done].
    rewrite Hne, Hf. cbn [truthy negb andb].
    destruct (create_here_ok E a ds w Hc)
      as (w' & w1 & pre & post & Hrun & Hlog & _ & _ & (ev & Hev & Hcr) & _).
    assert (Hin : ∃ ev, ev ∈ w_log w' ∧ is_repo_create (ds_path ds) ev = true).
    { exists ev. split; [|done]. rewrite Hlog.
      apply elem_of_app; right. by apply elem_of_app; left. }
    destruct Hsup as [Hs|[Hs Hnone]].
    + rewrite Hs. eauto.
    + rewrite Hs, Hnone. cbn. eauto.
Qed.

Lemma create_in_non_empty_directory_witness :
  Create.call Examples.create_env
    (Examples.args "/data" (VBool false) VNone (VBool false) (VBool false))
    Examples.world =
  (Raise (ValueError (Create.msg_not_empty "/data")), Examples.world)
  ∧ ∃ w', Create.call Examples.create_env
            (Examples.args "/data" (VBool true) VNone (VBool false)
               (VBool false))
            Examples.world = (Ok (mkDataset "/data"), w')
          ∧ ∃ ev, ev ∈ w_log w' ∧ is_repo_create "/data" ev = true.
Proof.
  split.
  - apply (create_in_non_empty_directory Examples.create_env
             (Examples.args "/data" (VBool false) VNone (VBool false)
                (VBool false))
             Examples.world (mkDataset "/data")); reflexivity.
  - apply (create_in_non_empty_directory Examples.create_env
             (Examples.args "/data" (VBool true) VNone (VBool false)
                (VBool false))
             Examples.world (mkDataset "/data"));
      [reflexivity | reflexivity | reflexivity | left; reflexivity
      | reflexivity].
Defined.

(** C3 as stated fails: [create('/data', force=True, no_annex=True,
    description='notes')] in the non-empty directory [/data] raises
    [ValueError] although [force] is given. *)
Lemma create_forced_may_fail :
  non_empty_dir Examples.world "/data" = true
  ∧ Create.call Examples.create_env
      (Examples.args "/data" (VBool true) (VStr "notes") (VBool false)
         (VBool true))
      Examples.world =
    (Raise (ValueError Create.msg_description), Examples.world).
Proof. split; vm_compute; reflexivity. Qed.

(** ** Dataset creation: description of a plain Git repository *)

(** C4.  A call with a non-empty description and [no_annex=True] raises
    [ValueError], whatever the other arguments: at one of its own checks,
    or, when it hands the creation over to a superdataset, in
    [create_subdataset], which receives the description and [no_annex]
    unchanged and is taken to reject them as [Create.__call__] does. *)
Theorem create_description_with_no_annex (E : Create.Env) a w :
  subdataset_validates E →
  truthy (Create.description a) = true →
  Create.no_annex a = VBool true →
  ∃ msg w', Create.call E a w = (Raise (ValueError msg), w').
Proof.
  intros Hsub Hd Hna.
  assert (Hc : annex_conflict a = true).
  { unfold annex_conflict. by rewrite Hna, Hd. }
  destruct (is_bool (Create.force a)) eqn:Hb.
  2: { rewrite call_force_not_bool by done. by do 2 eexists. }
  destruct (target_ok a w) as [ds Ht].
  rewrite (call_eq E a w ds Hb Ht).
  destruct (create_here_conflict E a ds w Hc) as [msg Hm].
  destruct (_ && _); [by do 2 eexists|].
  destruct (truthy (Create.add_to_super a)); [|by do 2 eexists].
  destruct (w_super w !! ds_path ds) as [sds|].
  { apply Hsub; cbn; [by rewrite Hna|done]. }
  destruct (is_bool (Create.add_to_super a)); [by do 2 eexists|].
  destruct (eq_str (Create.add_to_super a) "auto"); by do 2 eexists.
Qed.

Lemma create_description_with_no_annex_witness :
  ∃ msg w',
    Create.call Examples.create_env
      (Examples.args "/super/sub" (VBool false) (VStr "notes") (VBool true)
         (VBool true))
      Examples.world = (Raise (ValueError msg), w').
Proof.
  apply (create_description_with_no_annex Examples.create_env
           (Examples.args "/super/sub" (VBool false) (VStr "notes")
              (VBool true) (VBool true))
           Examples.world);
    [| reflexivity | reflexivity].
  intros sds c w Hna Hd. cbn. rewrite Hna, Hd. by do 2 eexists.
Defined.

(** ** Dataset creation: failed validation leaves no trace *)

(** C5.  Each failure of input validation raises [ValueError] with the
    world exactly as it was found (nothing initialised, no configuration
    written, nothing staged or committed): a [force] that is not a [bool],
    a non-empty target directory without [force], and an annex-specific
    option together with [no_annex] where [Create.__call__] itself checks
    it, that is, when the call is not handed over to a superdataset.  More
    generally, such a call never fails in any other way. *)
Theorem create_validation_has_no_effect (E : Create.Env) a w ds :
  Create.target a w = (Ok ds, w) →
  (is_bool (Create.force a) = false →
   Create.call E a w =
   (Raise (ValueError (Create.msg_force E (Create.force a))), w))
  ∧ (Create.force a = VBool false →
     non_empty_dir w (ds_path ds) = true →
     Create.call E a w =
     (Raise (ValueError (Create.msg_not_empty (ds_path ds))), w))
  ∧ (annex_conflict a = true →
     delegated a w ds = false →
     ∃ msg, Create.call E a w = (Raise (ValueError msg), w))
  ∧ (delegated a w ds = false →
     ∀ e w', Create.call E a w = (Raise e, w') →
             w' = w ∧ is_ValueError e = true).
Proof.
  intros Ht. split; [|split; [|split]].
  - apply call_force_not_bool.
  - intros Hf Hne. rewrite (call_eq E a w ds); [|by rewrite Hf|done].
    by rewrite Hne, Hf.
  - intros Hc Hd.
    destruct (is_bool (Create.force a)) eqn:Hb.
    2: { rewrite call_force_not_bool by done. by eexists. }
    destruct (call_here E a w ds Hb Ht Hd) as [->|Hr]; [|done].
    by apply create_here_conflict.
  - intros Hd e w' Hrun.
    destruct (is_bool (Create.force a)) eqn:Hb.
    2: { rewrite call_force_not_bool in Hrun by done. by inversion Hrun. }
    destruct (call_here E a w ds Hb Ht Hd) as [Hh|[msg Hr]].
    + rewrite Hh in Hrun.
      destruct (annex_conflict a) eqn:Hc.
      * destruct (create_here_conflict E a ds w Hc) as [msg Hm].
        rewrite Hm in Hrun. by inversion Hrun.
      * destruct (create_here_ok E a ds w Hc) as (w2 & ? & ? & ? & Hok & _).
        rewrite Hok in Hrun. by inversion Hrun.
    + rewrite Hr in Hrun. by inversion Hrun.
Qed.

Lemma create_validation_has_no_effect_witness :
  Create.call Examples.create_env
    (Examples.args "/fresh" (VStr "/elsewhere") VNone (VBool false)
       (VBool false))
    Examples.world =
  (Raise (ValueError
            "force should be bool, got '/elsewhere'.  Did you mean to provide a 'path'?"),
   Examples.world)
  ∧ Create.call Examples.create_env
      (Examples.args "/data" (VBool false) VNone (VBool false) (VBool false))
      Examples.world =
    (Raise (ValueError (Create.msg_not_empty "/data")), Examples.world)
  ∧ ∃ msg, Create.call Examples.create_env
             (Examples.args "/fresh" (VBool false) (VStr "notes")
                (VBool false) (VBool true))
             Examples.world =
           (Raise (ValueError msg), Examples.world).
Proof.
  split; [|split].
  - apply (create_validation_has_no_effect Examples.create_env
             (Examples.args "/fresh" (VStr "/elsewhere") VNone (VBool false)
                (VBool false))
             Examples.world (mkDataset "/fresh"));
      reflexivity.
  - apply (create_validation_has_no_effect Examples.create_env
             (Examples.args "/data" (VBool false) VNone (VBool false)
                (VBool false))
             Examples.world (mkDataset "/data"));
      reflexivity.
  - pose proof (create_validation_has_no_effect Examples.create_env
             (Examples.args "/fresh" (VBool false) (VStr "notes")
                (VBool false) (VBool true))
             Examples.world (mkDataset "/fresh") eq_refl)
      as (_ & _ & H & _).
    apply H; reflexivity.
Defined.

(** ** Dataset creation: the dataset identifier *)

(** C6.  A run of [Create.__call__] that returns (one that is not handed
    over to a superdataset) touches [datalad.dataset.id] as follows: the
    variable is unset if, and only if, it was on record, and is then added
    exactly once.  Afterwards it holds a single value, [ds.id] as read
    once nothing is on record any more; no earlier value survives, and
    the recorded one is new as soon as [ds.id], read in that situation,
    does not hand out a value recorded before. *)
Theorem create_resets_dataset_id (E : Create.Env) a w ds d w' :
  Create.target a w = (Ok ds, w) →
  delegated a w ds = false →
  (∀ w0 old,
     w_config w !! (ds_path ds, Create.id_var) = Some old →
     w_config w0 !! (ds_path ds, Create.id_var) = None →
     VStr (Create.dataset_id E w0 ds) ∉ old) →
  Create.call E a w = (Ok d, w') →
  d = ds
  ∧ ∃ w1 evs,
      w_config w1 !! (ds_path ds, Create.id_var) = None
      ∧ (w_log w' = w_log w ++ evs)%list
      ∧ List.filter (touches (ds_path ds) Create.id_var) evs =
        id_events w ds (Create.dataset_id E w1 ds)
      ∧ w_config w' !! (ds_path ds, Create.id_var) =
        Some [VStr (Create.dataset_id E w1 ds)]
      ∧ ∀ old, w_config w !! (ds_path ds, Create.id_var) = Some old →
               VStr (Create.dataset_id E w1 ds) ∉ old.
Proof.
  intros Ht Hd Hfresh Hrun.
  destruct (is_bool (Create.force a)) eqn:Hb.
  2: { rewrite call_force_not_bool in Hrun by done. by inversion Hrun. }
  destruct (call_here E a w ds Hb Ht Hd) as [Hh|[msg Hr]].
  2: { rewrite Hr in Hrun. by inversion Hrun. }
  rewrite Hh in Hrun.
  destruct (annex_conflict a) eqn:Hc.
  { destruct (create_here_conflict E a ds w Hc) as [msg Hm].
    rewrite Hm in Hrun. by inversion Hrun. }
  destruct (create_here_ok E a ds w Hc)
    as (w2 & w1 & pre & post & Hok & Hlog & Hpre & Hpost & _ & Hcfg & Hw1).
  rewrite Hok in Hrun. inversion Hrun; subst d w2. split; [done|].
  exists w1, (pre ++ id_events w ds (Create.dataset_id E w1 ds) ++ post)%list.
  repeat split; try done.
  - by rewrite !List.filter_app, Hpre, Hpost, id_events_touch, app_nil_r.
  - intros old Hold. by apply Hfresh.
Qed.

Lemma create_resets_dataset_id_witness :
  w_config Examples.world !! ("/data", Create.id_var) = Some [VStr "old-id"]
  ∧ ∃ w1 evs,
      w_config w1 !! ("/data", Create.id_var) = None
      ∧ w_log Examples.recreated = (w_log Examples.world ++ evs)%list
      ∧ List.filter (touches "/data" Create.id_var) evs =
        id_events Examples.world (mkDataset "/data")
          (Create.dataset_id Examples.create_env w1 (mkDataset "/data"))
      ∧ w_config Examples.recreated !! ("/data", Create.id_var) =
        Some [VStr (Create.dataset_id Examples.create_env w1
                      (mkDataset "/data"))]
      ∧ ∀ old,
          w_config Examples.world !! ("/data", Create.id_var) = Some old →
          VStr (Create.dataset_id Examples.create_env w1 (mkDataset "/data"))
          ∉ old.
Proof.
  split; [reflexivity|].
  apply (create_resets_dataset_id Examples.create_env Examples.recreate
           Examples.world (mkDataset "/data") (mkDataset "/data")
           Examples.recreated).
  - reflexivity.
  - reflexivity.
  - intros w0 old Hold _ Hin.
    assert (old = [VStr "old-id"]) as -> by (vm_compute in Hold; congruence).
    apply list_elem_of_singleton in Hin. discriminate Hin.
  - vm_compute. reflexivity.
Defined.

(** ** Dataset creation: no superdataset to register in *)

(** C7, as the code has it.  With no superdataset discoverable for the
    target, [add_to_super=True] makes the call raise [ValueError], the
    world untouched; [add_to_super='auto'] makes it behave exactly as the
    same call without [add_to_super], so nothing is registered and the
    dataset is created whenever that call creates it: when [force] is a
    [bool], the target directory is acceptable and no annex-specific
    option is combined with [no_annex]. *)
Theorem create_without_superdataset (E : Create.Env) a w ds :
  Create.target a w = (Ok ds, w) →
  w_super w !! ds_path ds = None →
  (Create.add_to_super a = VBool true →
   ∃ msg, Create.call E a w = (Raise (ValueError msg), w))
  ∧ (Create.add_to_super a = VStr "auto" →
     Create.call E a w = Create.call E (with_add_to_super (VBool false) a) w
     ∧ (is_bool (Create.force a) = true →
        non_empty_dir w (ds_path ds) && negb (truthy (Create.force a))
        = false →
        annex_conflict a = false →
        ∃ w', Create.call E a w = (Ok ds, w')
              ∧ ∃ ev, ev ∈ w_log w'
                      ∧ is_repo_create (ds_path ds) ev = true)).
Proof.
  intros Ht Hnone. split.
  - intros Hs.
    destruct (is_bool (Create.force a)) eqn:Hb.
    2: { rewrite call_force_not_bool by done. by eexists. }
    rewrite (call_eq E a w ds Hb Ht), Hs, Hnone. cbn.
    destruct (_ && _); by eexists.
  - intros Hs.
    assert (Hauto : Create.call E a w =
                    Create.call E (with_add_to_super (VBool false) a) w).
    { destruct (is_bool (Create.force a)) eqn:Hb.
      2: { by rewrite !call_force_not_bool. }
      rewrite (call_eq E a w ds Hb Ht).
      rewrite (call_eq E (with_add_to_super (VBool false) a) w ds Hb Ht).
      rewrite Hs, Hnone. cbn. reflexivity. }
    split; [done|].
    intros Hb Hdir Hc.
    rewrite (call_eq E a w ds Hb Ht), Hdir, Hs, Hnone. cbn.
    destruct (create_here_ok E a ds w Hc)
      as (w' & w1 & pre & post & Hrun & Hlog & _ & _ & (ev & Hev & Hcr) & _).
    exists w'. split; [done|]. exists ev. split; [|done].
    rewrite Hlog. apply elem_of_app; right. by apply elem_of_app; left.
Qed.

Lemma create_without_superdataset_witness :
  (∃ msg, Create.call Examples.create_env
            (Examples.args "/fresh" (VBool false) VNone (VBool true)
               (VBool false))
            Examples.world = (Raise (ValueError msg), Examples.world))
  ∧ ∃ w', Create.call Examples.create_env
            (Examples.args "/fresh" (VBool false) VNone (VStr "auto")
               (VBool false))
            Examples.world = (Ok (mkDataset "/fresh"), w')
          ∧ ∃ ev, ev ∈ w_log w' ∧ is_repo_create "/fresh" ev = true.
Proof.
  split.
  - apply (create_without_superdataset Examples.create_env
             (Examples.args "/fresh" (VBool false) VNone (VBool true)
                (VBool false))
             Examples.world (mkDataset "/fresh")); reflexivity.
  - apply (create_without_superdataset Examples.create_env
             (Examples.args "/fresh" (VBool false) VNone (VStr "auto")
                (VBool false))
             Examples.world (mkDataset "/fresh")); reflexivity.
Defined.

(** C7 as stated fails: [create('/fresh', add_to_super='auto',
    no_annex=True, description='notes')], with no superdataset for
    [/fresh], does not create the dataset but raises [ValueError]. *)
Lemma create_auto_may_fail :
  w_super Examples.world !! "/fresh" = None
  ∧ Create.call Examples.create_env
      (Examples.args "/fresh" (VBool false) (VStr "notes") (VStr "auto")
         (VBool true))
      Examples.world =
    (Raise (ValueError Create.msg_description), Examples.world).
Proof. split; vm_compute; reflexivity. Qed.

(** ** Plugin dispatch *)

Lemma string_app_cons c (s1 s2 : string) :
  String c s1 ++ s2 = String c (s1 ++ s2).
Proof. reflexivity. Qed.

Lemma string_app_assoc (s1 s2 s3 : string) :
  (s1 ++ s2) ++ s3 = s1 ++ s2 ++ s3.
Proof.
  induction s1 as [|c s1 IH]; [reflexivity|].
  by rewrite !string_app_cons, IH.
Qed.

Lemma string_app_nil_r (s : string) : s ++ EmptyString = s.
Proof.
  induction s as [|c s IH]; [reflexivity|].
  by rewrite string_app_cons, IH.
Qed.

Lemma mentions_middle (pre s post : string) : mentions (pre ++ s ++ post) s.
Proof. by exists pre, post. Qed.

(** C8.  When the import of the plugin module fails with [ImportError],
    [Plugin.__call__] raises [ValueError]; the message contains the
    requested plugin name and the rendering of the import error; the
    world is left as it was, so no entry point has been invoked. *)
Theorem plugin_unresolvable (E : Plugin.Env) plugin dataset showpluginhelp
    output kwargs w m :
  Plugin.import_module E ("." ++ plugin) Plugin.package
  = Raise (ImportError m) →
  Plugin.call E plugin dataset showpluginhelp output kwargs w =
  (Raise (ValueError (Plugin.msg_cannot_load E plugin (ImportError m))), w)
  ∧ mentions (Plugin.msg_cannot_load E plugin (ImportError m)) plugin
  ∧ mentions (Plugin.msg_cannot_load E plugin (ImportError m))
      (Plugin.exc_str E (ImportError m)).
Proof.
  intros Himp. split; [|split].
  - unfold Plugin.call, Plugin.load. rewrite Himp. reflexivity.
  - apply mentions_middle.
  - exists ("cannot load plugin '" ++ plugin ++ "': "), EmptyString.
    unfold Plugin.msg_cannot_load.
    by rewrite string_app_nil_r, !string_app_assoc.
Qed.

Lemma plugin_unresolvable_witness :
  Plugin.call Examples.plugin_env "export_nothing" Plugin.DatasetNone
    (VBool false) VNone ∅ Examples.world =
  (Raise (ValueError
            "cannot load plugin 'export_nothing': No module named 'datalad.plugin.export_nothing'"),
   Examples.world).
Proof.
  apply (plugin_unresolvable Examples.plugin_env "export_nothing"
           Plugin.DatasetNone (VBool false) VNone ∅ Examples.world
           "No module named 'datalad.plugin.export_nothing'").
  reflexivity.
Defined.

(** C10.  With [showpluginhelp=True] and a plugin that imports, the call
    returns the pair of the module and [None] and leaves the world as it
    was: no dataset is required (the [dataset] argument and
    [require_dataset] play no part), and the entry point is not invoked. *)
Theorem plugin_help_needs_no_dataset (E : Plugin.Env) plugin dataset output
    kwargs w pluginmod :
  Plugin.import_module E ("." ++ plugin) Plugin.package = Ok pluginmod →
  Plugin.call E plugin dataset (VBool true) output kwargs w =
  (Ok (pluginmod, VNone), w).
Proof.
  intros Himp. unfold Plugin.call, Plugin.load. by rewrite Himp.
Qed.

Lemma plugin_help_needs_no_dataset_witness :
  Plugin.call Examples.plugin_env "export_tarball" Plugin.DatasetNone
    (VBool true) VNone ∅ Examples.world =
  (Ok (Examples.export_tarball, VNone), Examples.world)
  ∧ ∃ e, Plugin.require_dataset Examples.plugin_env Plugin.DatasetNone
           Examples.world = (Raise e, Examples.world).
Proof.
  split.
  - apply (plugin_help_needs_no_dataset Examples.plugin_env "export_tarball"
             Plugin.DatasetNone VNone ∅ Examples.world
             Examples.export_tarball).
    reflexivity.
  - eexists. reflexivity.
Defined.

(** ** GitHub siblings: the URL of a repository *)

Lemma with_username_https (rest user : string) :
  GitHub.with_username ("https://" ++ rest) user =
  "https://" ++ user ++ "@" ++ rest.
Proof. reflexivity. Qed.

(** C9.  [get_repo_url] selects by protocol: for ['ssh'] the SSH URL as it
    is, whatever the login; for ['https'] the clone URL, unmodified without
    a login, and with [user@] inserted right after [https://] when a login
    is given. *)
Theorem get_repo_url_by_protocol (repo : GitHub.Repo) login rest user :
  user ≠ EmptyString →
  GitHub.get_repo_url repo "ssh" login = Ok (GitHub.ssh_url repo)
  ∧ GitHub.get_repo_url repo "https" None = Ok (GitHub.clone_url repo)
  ∧ GitHub.get_repo_url (GitHub.mkRepo ("https://" ++ rest)
                           (GitHub.ssh_url repo)) "https" (Some user)
    = Ok ("https://" ++ user ++ "@" ++ rest).
Proof.
  intros Hu. repeat split.
  unfold GitHub.get_repo_url. cbn [String.eqb Ascii.eqb Bool.eqb GitHub.clone_url].
  apply String.eqb_neq in Hu. rewrite Hu. by rewrite with_username_https.
Qed.

Lemma get_repo_url_by_protocol_witness :
  GitHub.get_repo_url Examples.repo1 "ssh" (Some "user2")
  = Ok "git@github.com/user1/repo1"
  ∧ GitHub.get_repo_url Examples.repo1 "https" None
    = Ok "https://github.com/user1/repo"
  ∧ GitHub.get_repo_url Examples.repo1 "https" (Some "user2")
    = Ok "https://user2@github.com/user1/repo".
Proof.
  apply (get_repo_url_by_protocol Examples.repo1 (Some "user2")
           "github.com/user1/repo" "user2").
  discriminate.
Defined.

(** ** GitHub siblings: the credential retry policy *)

Local Close Scope string_scope.

Section Retry.

Import GitHub.

Variable api : Api.

(** Candidates that are refused for [reponame] are used once each and
    given up, in order. *)
Lemma create_repo_refused reponame bad cands n att warn marked :
  (∀ c, c ∈ bad → api (entity c) reponame = AuthenticationFailed) →
  create_repo api reponame (bad ++ cands) false n att warn marked =
  create_repo api reponame cands false (n + length bad)
    (att ++ ((λ c, (c, reponame)) <$> bad))
    (warn ++ (msg_auth_failed <$> bad)) marked.
Proof.
  revert n att warn.
  induction bad as [|c bad IH]; intros n att warn Hbad.
  - cbn. by rewrite Nat.add_0_r, !app_nil_r.
  - cbn [app create_repo length fmap list_fmap].
    rewrite (Hbad c) by set_solver.
    rewrite IH by (intros; apply Hbad; set_solver).
    f_equal; [lia| |]; by rewrite <- app_assoc.
Qed.

(** With nobody left, a repository fails without any call. *)
Lemma create_repos_exhausted rinfo n att warn marked used res :
  ∃ used',
    create_repos api rinfo (mkProgress [] used n att warn marked) res =
    (Ok res, mkProgress [] used' n att warn (marked ++ rinfo.*2)).
Proof.
  revert used marked.
  induction rinfo as [|[ds reponame] rinfo IH]; intros used marked.
  - eexists. cbn. by rewrite app_nil_r.
  - cbn. edestruct IH as [used' ->]. eexists.
    by rewrite <- app_assoc.
Qed.

(** With a current candidate that is accepted for every item, the rest
    of the batch is created with it. *)
Lemma create_repos_accepted good cands rinfo used n att warn marked res :
  (∀ r, r ∈ rinfo →
        ∃ url pre, api (entity good) r.2 = Created url pre) →
  ∃ used' n',
    create_repos api rinfo
      (mkProgress (good :: cands) used n att warn marked) res
    = (Ok (res ++ (created_with api good <$> rinfo)),
       mkProgress (good :: cands) used' n'
         (att ++ ((λ r, (good, r.2)) <$> rinfo)) warn marked).
Proof.
  revert used n att res.
  induction rinfo as [|[ds reponame] rinfo IH]; intros used n att res Hgood.
  - do 2 eexists. cbn. by rewrite !app_nil_r.
  - destruct (Hgood (ds, reponame)) as (url & pre & Hc); [set_solver|].
    cbn in Hc. cbn [create_repos create_repo candidates current_used
                     ncredattempts attempts warnings failed].
    rewrite Hc.
    edestruct IH as (used' & n' & ->); [intros; apply Hgood; set_solver|].
    do 2 eexists. unfold created_with at 2. cbn [fmap list_fmap fst snd].
    rewrite Hc. by rewrite <- !app_assoc.
Qed.

End Retry.

(** C1.  When the first candidates are refused and the next one is
    accepted, every repository of the batch is created, with what the
    accepted candidate obtains for it.  The calls made are: the first
    repository with each refused candidate in turn, then every repository,
    in order, with the accepted candidate; so each refusal is followed by
    a retry of the same repository, and no refused candidate is used for a
    later one. *)
Theorem make_github_repos_first_accepted (api : GitHub.Api) bad good rest
    rinfo :
  (∀ c r, c ∈ bad → r ∈ rinfo →
          api (GitHub.entity c) r.2 = GitHub.AuthenticationFailed) →
  (∀ r, r ∈ rinfo →
        ∃ url pre, api (GitHub.entity good) r.2 = GitHub.Created url pre) →
  fst (GitHub.make_github_repos api (bad ++ good :: rest) rinfo)
  = Ok (created_with api good <$> rinfo)
  ∧ GitHub.attempts
      (snd (GitHub.make_github_repos api (bad ++ good :: rest) rinfo))
    = first_item_with bad rinfo ++ ((λ r, (good, r.2)) <$> rinfo).
Proof.
  intros Hbad Hgood. unfold GitHub.make_github_repos.
  destruct rinfo as [|[ds reponame] rinfo]; [done|].
  cbn [GitHub.create_repos GitHub.candidates GitHub.current_used
       GitHub.ncredattempts GitHub.attempts GitHub.warnings GitHub.failed].
  rewrite create_repo_refused
    by (intros c Hc; apply (Hbad c (ds, reponame)); [done|set_solver]).
  destruct (Hgood (ds, reponame)) as (url & pre & Hc); [set_solver|].
  cbn in Hc. cbn [GitHub.create_repo]. rewrite Hc.
  edestruct (create_repos_accepted api good rest rinfo)
    as (used' & n' & ->); [intros; apply Hgood; set_solver|].
  cbn [first_item_with fmap list_fmap snd fst app].
  unfold created_with at 2. cbn [snd fst]. rewrite Hc.
  split; [done|]. cbn [snd GitHub.attempts]. by rewrite <- !app_assoc.
Qed.

Lemma make_github_repos_first_accepted_witness :
  fst (GitHub.make_github_repos Examples.first_refused
         Examples.three_candidates Examples.batch)
  = Ok [(mkDataset "/fakeds1", "fakeds1", false);
        (mkDataset "/fakeds2", "fakeds2", false)]
  ∧ GitHub.attempts
      (snd (GitHub.make_github_repos Examples.first_refused
              Examples.three_candidates Examples.batch))
    = [(GitHub.mkCandidate "entity1" (Some "cred1"), "fakeds1");
       (GitHub.mkCandidate "entity2" (Some "cred2"), "fakeds1");
       (GitHub.mkCandidate "entity2" (Some "cred2"), "fakeds2")].
Proof.
  apply (make_github_repos_first_accepted Examples.first_refused
           [GitHub.mkCandidate "entity1" (Some "cred1")]
           (GitHub.mkCandidate "entity2" (Some "cred2"))
           [GitHub.mkCandidate "entity3" (Some "cred3")]
           Examples.batch).
  - intros c r Hc _. apply list_elem_of_singleton in Hc. by rewrite Hc.
  - intros r _. by do 2 eexists.
Defined.

(** C2, as the code has it.  For a batch with at least one repository and
    at least one candidate, if every candidate is refused for every
    repository, [_make_github_repos] returns no list of results but raises
    [AccessDeniedError]; the message gives the number of credentials
    tried, which is the number of candidates: each was used exactly once,
    for the first repository. *)
Theorem make_github_repos_all_refused (api : GitHub.Api) cands rinfo :
  cands ≠ [] →
  rinfo ≠ [] →
  (∀ c r, c ∈ cands → r ∈ rinfo →
          api (GitHub.entity c) r.2 = GitHub.AuthenticationFailed) →
  fst (GitHub.make_github_repos api cands rinfo)
  = Raise (AccessDeniedError (GitHub.msg_access_denied (length cands)))
  ∧ mentions (GitHub.msg_access_denied (length cands))
      ("Tried " +:+ pretty (length cands) +:+ " times")
  ∧ GitHub.ncredattempts (snd (GitHub.make_github_repos api cands rinfo))
    = length cands
  ∧ GitHub.attempts (snd (GitHub.make_github_repos api cands rinfo))
    = first_item_with cands rinfo.
Proof.
  intros Hcands Hrinfo Hbad.
  assert (Hrun : ∃ used' warn,
             GitHub.make_github_repos api cands rinfo =
             (Raise (AccessDeniedError
                       (GitHub.msg_access_denied (length cands))),
              GitHub.mkProgress [] used' (length cands)
                (first_item_with cands rinfo) warn (rinfo.*2))).
  { unfold GitHub.make_github_repos.
    destruct rinfo as [|[ds reponame] rinfo]; [done|].
    cbn [GitHub.create_repos GitHub.candidates GitHub.current_used
         GitHub.ncredattempts GitHub.attempts GitHub.warnings GitHub.failed].
    pose proof (create_repo_refused api reponame cands [] 0 [] [] []) as Hr.
    rewrite app_nil_r in Hr. rewrite Hr
      by (intros c Hc; apply (Hbad c (ds, reponame)); [done|set_solver]).
    cbn [GitHub.create_repo].
    edestruct (create_repos_exhausted api rinfo) as [used' ->].
    cbn [GitHub.ncredattempts GitHub.failed app].
    rewrite bool_decide_eq_false_2 by (destruct cands; [done|cbn; lia]).
    by do 2 eexists. }
  destruct Hrun as (used' & warn & ->). repeat split.
  exists EmptyString,
    " to get authenticated access to GitHub but kept failing"%string.
  unfold GitHub.msg_access_denied.
  by rewrite !string_app_assoc.
Qed.

Lemma make_github_repos_all_refused_witness :
  fst (GitHub.make_github_repos Examples.all_refused
         Examples.three_candidates Examples.batch)
  = Raise (AccessDeniedError
             "Tried 3 times to get authenticated access to GitHub but kept failing")
  ∧ mentions
      "Tried 3 times to get authenticated access to GitHub but kept failing"
      "Tried 3 times"
  ∧ GitHub.ncredattempts
      (snd (GitHub.make_github_repos Examples.all_refused
              Examples.three_candidates Examples.batch)) = 3
  ∧ GitHub.attempts
      (snd (GitHub.make_github_repos Examples.all_refused
              Examples.three_candidates Examples.batch))
    = [(GitHub.mkCandidate "entity1" (Some "cred1"), "fakeds1");
       (GitHub.mkCandidate "entity2" (Some "cred2"), "fakeds1");
       (GitHub.mkCandidate "entity3" (Some "cred3"), "fakeds1")].
Proof.
  apply (make_github_repos_all_refused Examples.all_refused
           Examples.three_candidates Examples.batch).
  - discriminate.
  - discriminate.
  - reflexivity.
Defined.

(** C2 as stated fails without candidates: every candidate (there is
    none) is refused for every repository of the batch, yet the error
    raised is not [AccessDeniedError]; no attempt was made, and
    [RuntimeError] is raised. *)
Lemma make_github_repos_without_candidates :
  (∀ c r, c ∈ [] → r ∈ Examples.batch →
          Examples.all_refused (GitHub.entity c) r.2
          = GitHub.AuthenticationFailed)
  ∧ fst (GitHub.make_github_repos Examples.all_refused [] Examples.batch)
    = Raise (RuntimeError GitHub.msg_did_not_try).
Proof. split; [done|reflexivity]. Qed.


(** * Further properties *)

(** ** Dataset creation: what a run does, step by step *)

Section CreateRun.

Import Create.

Variable E : Create.Env.

Lemma config_appended_other (key key' : string * string)
    (vs : list pyval) (cfg : gmap (string * string) (list pyval)) :
  key ≠ key' → config_appended key vs cfg !! key' = cfg !! key'.
Proof.
  intros Hne. unfold config_appended. destruct vs; [done|].
  by apply lookup_insert_ne.
Qed.

(** The loop of lines 229-230, exactly. *)
Lemma add_native_types_exact ds nts w :
  for_each nts (λ nt, config_add ds nativetype_var nt) w =
  (Ok tt, mkWorld (w_cwd w) (w_dirs w) (w_super w)
            (config_appended (ds_path ds, nativetype_var) nts (w_config w))
            (w_log w ++ (EvConfigAdd (ds_path ds) nativetype_var <$> nts))).
Proof.
  revert w. induction nts as [|nt nts IH]; intros w.
  - cbn. by rewrite app_nil_r, world_eta.
  - cbn [for_each]. unfold bind at 1.
    unfold config_add at 1, perform, set_config.
    cbn [w_cwd w_dirs w_super w_config w_log]. rewrite IH.
    cbn [w_cwd w_dirs w_super w_config w_log fmap list_fmap].
    f_equal. f_equal.
    + unfold config_appended. destruct nts as [|nt' nts]; [done|].
      rewrite lookup_insert_eq, insert_insert_eq.
      cbn [default from_option id]. by rewrite <- app_assoc.
    + by rewrite <- app_assoc.
Qed.

Lemma record_native_types_exact a ds w :
  record_native_types a ds w =
  (Ok tt, mkWorld (w_cwd w) (w_dirs w) (w_super w)
            (config_appended (ds_path ds, nativetype_var) (native_values a)
               (w_config w))
            (w_log w ++
             (EvConfigAdd (ds_path ds) nativetype_var <$> native_values a))).
Proof.
  unfold record_native_types, native_values.
  destruct (native_metadata_type a); cbn [is_none negb];
    try apply add_native_types_exact.
  cbn. by rewrite app_nil_r, world_eta.
Qed.

(** Lines 232-238, exactly. *)
Lemma record_id_exact ds w :
  ∃ w1,
    record_id E ds w =
    (Ok tt, mkWorld (w_cwd w) (w_dirs w) (w_super w)
              (<[(ds_path ds, id_var) := [VStr (dataset_id E w1 ds)]]>
                 (w_config w))
              (w_log w ++ id_events w ds (dataset_id E w1 ds)))
    ∧ w_config w1 !! (ds_path ds, id_var) = None.
Proof.
  unfold record_id, id_events, bind, config_contains, config_unset,
    config_add, gets, perform, set_config, ret.
  destruct (w_config w !! (ds_path ds, id_var)) as [old|] eqn:Hold.
  - rewrite bool_decide_eq_true_2; [|by eexists]. cbn beta iota.
    eexists (mkWorld _ _ _ _ _). split.
    + cbn [w_cwd w_dirs w_super w_config w_log].
      rewrite lookup_delete_eq, insert_delete_eq. cbn [default app].
      by rewrite <- app_assoc.
    + cbn [w_config]. apply lookup_delete_eq.
  - rewrite bool_decide_eq_false_2; [|by intros [? ?]]. cbn beta iota.
    exists w. split; [|done]. by rewrite Hold.
Qed.

(** Lines 198-248, exactly: the world a creation leaves. *)
Lemma create_here_exact a ds w :
  annex_conflict a = false →
  ∃ w1,
    create_here E a ds w =
    (Ok ds,
     mkWorld (w_cwd w) (w_dirs w) (w_super w)
       (<[(ds_path ds, id_var) := [VStr (dataset_id E w1 ds)]]>
          (config_appended (ds_path ds, nativetype_var) (native_values a)
             (w_config w)))
       (w_log w ++ creation_events a ds w (dataset_id E w1 ds)))
    ∧ w_config w1 !! (ds_path ds, id_var) = None.
Proof.
  intros Hc. unfold create_here.
  assert (Hinit : init_repo a ds w =
                  (Ok tt, log_append w
                     [EvLogInfo (if truthy (no_annex a)
                                 then "Creating a new git repo at " +:+ ds_path ds
                                 else "Creating a new annex repo at " +:+ ds_path ds);
                      repo_event a ds])).
  { unfold annex_conflict in Hc. unfold init_repo, repo_event.
    destruct (truthy (no_annex a)); cbn in Hc.
    - destruct (truthy (description a)); [done|].
      destruct (truthy (annex_opts a)); [done|].
      destruct (truthy (annex_init_opts a)); [done|].
      unfold bind. rewrite perform_id. cbn beta iota.
      by rewrite perform_id, log_append_app.
    - unfold bind. rewrite perform_id. cbn beta iota.
      by rewrite perform_id, log_append_app. }
  rewrite (bind_ok _ _ _ _ _ Hinit).
  rewrite (bind_ok _ _ _ _ _ (record_native_types_exact _ _ _)).
  cbn [log_append w_cwd w_dirs w_super w_config w_log].
  match goal with |- context [bind (record_id E ds) _ ?w2] =>
    destruct (record_id_exact ds w2) as (w1 & Hid & Hw1) end.
  cbn [w_cwd w_dirs w_super w_config w_log] in Hid.
  rewrite (bind_ok _ _ _ _ _ Hid).
  rewrite (bind_ok _ _ _ _ _ (perform_id _ _)).
  exists w1. split; [|done].
  assert (Hev : ∀ l i,
             id_events
               (mkWorld (w_cwd w) (w_dirs w) (w_super w)
                  (config_appended (ds_path ds, nativetype_var)
                     (native_values a) (w_config w)) l) ds i =
             id_events w ds i).
  { intros. unfold id_events. cbn [w_config].
    rewrite config_appended_other; [done|]. intros [=]. }
  unfold creation_events, commit_events.
  destruct (truthy (no_commit a)); cbn [negb].
  - unfold bind, ret, log_append.
    cbn [w_cwd w_dirs w_super w_config w_log]. rewrite Hev.
    do 2 f_equal. rewrite <- !app_assoc. by cbn [app].
  - rewrite (bind_ok _ _ _ _ _ (perform_id _ _)). unfold ret, log_append.
    cbn [w_cwd w_dirs w_super w_config w_log]. rewrite Hev.
    do 2 f_equal. rewrite <- !app_assoc. by cbn [app].
Qed.

(** A call that returns without having been handed over ran lines 198-248
    to their end. *)
Lemma call_returns a w ds d w' :
  target a w = (Ok ds, w) →
  delegated a w ds = false →
  call E a w = (Ok d, w') →
  d = ds ∧ annex_conflict a = false ∧
  ∃ w1,
    w' = mkWorld (w_cwd w) (w_dirs w) (w_super w)
           (<[(ds_path ds, id_var) := [VStr (dataset_id E w1 ds)]]>
              (config_appended (ds_path ds, nativetype_var) (native_values a)
                 (w_config w)))
           (w_log w ++ creation_events a ds w (dataset_id E w1 ds))
    ∧ w_config w1 !! (ds_path ds, id_var) = None.
Proof.
  intros Ht Hd Hrun.
  destruct (is_bool (force a)) eqn:Hb.
  2: { rewrite call_force_not_bool in Hrun by done. by inversion Hrun. }
  destruct (call_here E a w ds Hb Ht Hd) as [Hh|[msg Hr]].
  2: { rewrite Hr in Hrun. by inversion Hrun. }
  rewrite Hh in Hrun.
  destruct (annex_conflict a) eqn:Hc.
  { destruct (create_here_conflict E a ds w Hc) as [msg Hm].
    rewrite Hm in Hrun. by inversion Hrun. }
  destruct (create_here_exact a ds w Hc) as (w1 & Hok & Hw1).
  rewrite Hok in Hrun. inversion Hrun; subst. eauto.
Qed.

End CreateRun.

(** ** Dataset creation: the target *)

(** X1.  An empty string as [path] is treated as no path at all: in both
    cases the call is about the dataset at the working directory. *)
Theorem create_empty_path_is_cwd (E : Create.Env) a w :
  Create.call E (with_path (Create.PathStr EmptyString) a) w
  = Create.call E (with_path Create.PathNone a) w
  ∧ Create.target (with_path (Create.PathStr EmptyString) a) w
    = (Ok (mkDataset (w_cwd w)), w).
Proof. split; reflexivity. Qed.

(** ** Dataset creation: when a call succeeds *)

Lemma eq_str_auto v : eq_str v "auto" = true ↔ v = VStr "auto".
Proof.
  destruct v; cbn; try (split; [done|intros [=]]).
  rewrite String.eqb_eq. split; [by intros ->|by intros [=]].
Qed.

(** X2.  A call that is not handed over to a superdataset returns the
    dataset exactly when [force] is a [bool], the target is not a non-empty
    directory unless [force] is set, [add_to_super] is either not set or
    ['auto'], and no annex-specific option comes with [no_annex]. *)
Theorem create_succeeds_iff (E : Create.Env) a w ds :
  Create.target a w = (Ok ds, w) →
  delegated a w ds = false →
  (∃ w', Create.call E a w = (Ok ds, w'))
  ↔ is_bool (Create.force a) = true
    ∧ non_empty_dir w (ds_path ds) && negb (truthy (Create.force a)) = false
    ∧ (truthy (Create.add_to_super a) = false
       ∨ Create.add_to_super a = VStr "auto")
    ∧ annex_conflict a = false.
Proof.
  intros Ht Hd. split.
  - intros [w' Hrun].
    destruct (is_bool (Create.force a)) eqn:Hb.
    2: { rewrite call_force_not_bool in Hrun by done. by inversion Hrun. }
    split; [done|].
    destruct (call_returns E a w ds ds w' Ht Hd Hrun) as (_ & Hc & _).
    rewrite (call_eq E a w ds Hb Ht) in Hrun.
    destruct (_ && _); [by inversion Hrun|]. split; [done|].
    split; [|done].
    unfold delegated in Hd.
    destruct (truthy (Create.add_to_super a)); [right|by left].
    destruct (w_super w !! ds_path ds).
    { rewrite bool_decide_eq_true_2 in Hd; [done|by eexists]. }
    destruct (is_bool (Create.add_to_super a)); [by inversion Hrun|].
    destruct (eq_str (Create.add_to_super a) "auto") eqn:Hauto;
      [by apply eq_str_auto|by inversion Hrun].
  - intros (Hb & Hdir & Hsup & Hc).
    destruct (create_here_ok E a ds w Hc) as (w' & _ & _ & _ & Hrun & _).
    exists w'. rewrite (call_eq E a w ds Hb Ht), Hdir.
    destruct Hsup as [->|Hs]; [done|].
    unfold delegated in Hd. rewrite Hs in *. cbn in *.
    destruct (w_super w !! ds_path ds); [|done].
    rewrite bool_decide_eq_true_2 in Hd; [done|by eexists].
Qed.

Lemma create_succeeds_iff_witness :
  (∃ w', Create.call Examples.create_env Examples.recreate Examples.world
         = (Ok (mkDataset "/data"), w'))
  ↔ is_bool (Create.force Examples.recreate) = true
    ∧ non_empty_dir Examples.world "/data"
      && negb (truthy (Create.force Examples.recreate)) = false
    ∧ (truthy (Create.add_to_super Examples.recreate) = false
       ∨ Create.add_to_super Examples.recreate = VStr "auto")
    ∧ annex_conflict Examples.recreate = false.
Proof.
  apply (create_succeeds_iff Examples.create_env Examples.recreate
           Examples.world (mkDataset "/data")); reflexivity.
Defined.

(** ** Dataset creation: the operations of a run *)

Lemma id_events_quiet w ds i (f : event → bool) :
  f (EvConfigUnset (ds_path ds) Create.id_var) = false →
  f (EvConfigAdd (ds_path ds) Create.id_var (VStr i)) = false →
  Forall (λ ev, f ev = false) (id_events w ds i).
Proof.
  intros Hu Ha. unfold id_events.
  destruct (bool_decide _); repeat constructor; done.
Qed.

Lemma native_events_quiet p vs (f : event → bool) :
  (∀ v, f (EvConfigAdd p Create.nativetype_var v) = false) →
  Forall (λ ev, f ev = false) (EvConfigAdd p Create.nativetype_var <$> vs).
Proof. intros Hf. apply Forall_fmap, Forall_forall. intros v _. apply Hf. Qed.

(** X3.  A call that returns without having been handed over has
    initialised exactly one repository, before anything else it asked
    for: a plain Git repository when [no_annex] is set, and otherwise an
    annex with the given backend, version, description and options. *)
Theorem create_initialises_one_repository (E : Create.Env) a w ds d w' :
  Create.target a w = (Ok ds, w) →
  delegated a w ds = false →
  Create.call E a w = (Ok d, w') →
  ∃ info rest,
    w_log w' = w_log w ++ EvLogInfo info :: repo_event a ds :: rest
    ∧ creates_repo (repo_event a ds) = true
    ∧ Forall (λ ev, creates_repo ev = false) rest.
Proof.
  intros Ht Hd Hrun.
  destruct (call_returns E a w ds d w' Ht Hd Hrun)
    as (_ & _ & w1 & -> & _).
  do 2 eexists. split; [reflexivity|]. split.
  - unfold repo_event. by destruct (truthy (Create.no_annex a)).
  - apply Forall_app. split; [by apply native_events_quiet|].
    apply Forall_app. split; [by apply id_events_quiet|].
    unfold commit_events.
    destruct (truthy (Create.no_commit a)); repeat constructor.
Qed.

Lemma create_initialises_one_repository_witness :
  ∃ info rest,
    w_log Examples.recreated =
    w_log Examples.world ++
    EvLogInfo info ::
    EvAnnexRepoCreate "/data" (VStr "MD5E") VNone VNone VNone VNone VNone ::
    rest
    ∧ creates_repo
        (EvAnnexRepoCreate "/data" (VStr "MD5E") VNone VNone VNone VNone VNone)
      = true
    ∧ Forall (λ ev, creates_repo ev = false) rest.
Proof.
  apply (create_initialises_one_repository Examples.create_env
           Examples.recreate Examples.world (mkDataset "/data")
           (mkDataset "/data") Examples.recreated).
  - reflexivity.
  - reflexivity.
  - vm_compute. reflexivity.
Defined.

(** X4.  A call that returns without having been handed over ends by
    staging [.datalad], once, and commits right after it, once, unless
    [no_commit] is set, in which case nothing is committed at all. *)
Theorem create_stages_then_commits (E : Create.Env) a w ds d w' :
  Create.target a w = (Ok ds, w) →
  delegated a w ds = false →
  Create.call E a w = (Ok d, w') →
  ∃ front,
    w_log w' =
    w_log w ++ front ++
    EvRepoAdd (ds_path ds) ".datalad" true ::
    (if truthy (Create.no_commit a) then []
     else [EvCommit (ds_path ds) "Initial commit" true true])
    ∧ Forall (λ ev, stages_or_commits ev = false) front.
Proof.
  intros Ht Hd Hrun.
  destruct (call_returns E a w ds d w' Ht Hd Hrun)
    as (_ & _ & w1 & -> & _).
  exists ([EvLogInfo (if truthy (Create.no_annex a)
                      then "Creating a new git repo at " +:+ ds_path ds
                      else "Creating a new annex repo at " +:+ ds_path ds);
           repo_event a ds] ++
          (EvConfigAdd (ds_path ds) Create.nativetype_var <$> native_values a)
          ++ id_events w ds (Create.dataset_id E w1 ds)).
  split.
  - cbn [w_log]. unfold creation_events, commit_events.
    by rewrite <- !app_assoc.
  - apply Forall_app. split.
    { repeat constructor. unfold repo_event.
      by destruct (truthy (Create.no_annex a)). }
    apply Forall_app. split; [by apply native_events_quiet|].
    by apply id_events_quiet.
Qed.

Lemma create_stages_then_commits_witness :
  ∃ front,
    w_log Examples.recreated =
    w_log Examples.world ++ front ++
    [EvRepoAdd "/data" ".datalad" true;
     EvCommit "/data" "Initial commit" true true]
    ∧ Forall (λ ev, stages_or_commits ev = false) front.
Proof.
  apply (create_stages_then_commits Examples.create_env
           Examples.recreate Examples.world (mkDataset "/data")
           (mkDataset "/data") Examples.recreated).
  - reflexivity.
  - reflexivity.
  - vm_compute. reflexivity.
Defined.

(** ** Dataset creation: what a run leaves alone *)



(** X6.  A call that returns without having been handed over appends the
    given native metadata types, in the order given, to those already on
    record for the dataset: nothing on record is removed, a single label
    counts as a list of one, and [None] leaves the variable alone. *)
Theorem create_appends_native_types (E : Create.Env) a w ds d w' :
  Create.target a w = (Ok ds, w) →
  delegated a w ds = false →
  Create.call E a w = (Ok d, w') →
  w_config w' !! (ds_path ds, Create.nativetype_var) =
  match native_values a with
  | [] => w_config w !! (ds_path ds, Create.nativetype_var)
  | vs => Some (default [] (w_config w !! (ds_path ds, Create.nativetype_var))
                ++ vs)
  end.
Proof.
  intros Ht Hd Hrun.
  destruct (call_returns E a w ds d w' Ht Hd Hrun)
    as (_ & _ & w1 & -> & _).
  cbn [w_config]. rewrite lookup_insert_ne by (intros [=]).
  unfold config_appended. destruct (native_values a); [done|].
  apply lookup_insert_eq.
Qed.

Lemma create_appends_native_types_witness :
  w_config Examples.tagged_world !! ("/fresh", Create.nativetype_var)
  = Some [VStr "bids"; VStr "dicom"].
Proof.
  apply (create_appends_native_types Examples.create_env Examples.tagged
           Examples.world (mkDataset "/fresh") (mkDataset "/fresh")
           Examples.tagged_world).
  - reflexivity.
  - reflexivity.
  - vm_compute. reflexivity.
Defined.

(** ** Dataset creation: registration in a superdataset *)

(** X7.  When [add_to_super] is set and a superdataset is found, the call
    is the call of its [create_subdataset] with the target path, [force],
    [name], [description], [no_annex] and the annex and Git options;
    [no_commit] and [native_metadata_type] are not passed on, so their
    values make no difference. *)
Theorem create_handed_over (E : Create.Env) a w ds sds nc nt :
  Create.target a w = (Ok ds, w) →
  is_bool (Create.force a) = true →
  non_empty_dir w (ds_path ds) && negb (truthy (Create.force a)) = false →
  truthy (Create.add_to_super a) = true →
  w_super w !! ds_path ds = Some sds →
  Create.call E a w
  = Create.create_subdataset E sds (Create.subdataset_call a ds) w
  ∧ Create.call E (with_commit_and_native nc nt a) w = Create.call E a w.
Proof.
  intros Ht Hb Hdir Hs Hsds.
  rewrite (call_eq E a w ds Hb Ht).
  rewrite (call_eq E (with_commit_and_native nc nt a) w ds Hb Ht).
  cbn [with_commit_and_native Create.force Create.add_to_super].
  by rewrite Hdir, Hs, Hsds.
Qed.

Lemma create_handed_over_witness :
  Create.call Examples.create_env Examples.registered Examples.world
  = (Ok (mkDataset "/super/sub"), Examples.world)
  ∧ Create.call Examples.create_env
      (with_commit_and_native (VBool true) (VStr "bids") Examples.registered)
      Examples.world
    = Create.call Examples.create_env Examples.registered Examples.world.
Proof.
  apply (create_handed_over Examples.create_env Examples.registered
           Examples.world (mkDataset "/super/sub") (mkDataset "/super")
           (VBool true) (VStr "bids")); reflexivity.
Defined.

(** X8.  A value of [add_to_super] that is set but neither a [bool] nor
    ['auto'] is rejected with [ValueError], nothing done, only when no
    superdataset is found; when one is found, the value is accepted and
    the creation handed over to it. *)
Theorem create_unsupported_add_to_super (E : Create.Env) a w ds :
  Create.target a w = (Ok ds, w) →
  is_bool (Create.force a) = true →
  non_empty_dir w (ds_path ds) && negb (truthy (Create.force a)) = false →
  truthy (Create.add_to_super a) = true →
  is_bool (Create.add_to_super a) = false →
  Create.add_to_super a ≠ VStr "auto" →
  (w_super w !! ds_path ds = None →
   Create.call E a w =
   (Raise (ValueError
             (Create.msg_unknown_add_to_super E (Create.add_to_super a))), w))
  ∧ (∀ sds, w_super w !! ds_path ds = Some sds →
            Create.call E a w =
            Create.create_subdataset E sds (Create.subdataset_call a ds) w).
Proof.
  intros Ht Hb Hdir Hs Hnb Hauto.
  rewrite (call_eq E a w ds Hb Ht), Hdir, Hs, Hnb.
  split.
  - intros ->. destruct (eq_str _ _) eqn:Heq; [|done].
    by apply eq_str_auto in Heq.
  - by intros sds ->.
Qed.

Lemma create_unsupported_add_to_super_witness :
  Create.call Examples.create_env
    (Examples.args "/fresh" (VBool false) VNone (VStr "yes") (VBool false))
    Examples.world
  = (Raise (ValueError "Do not know how to handle add_to_super='yes'"),
     Examples.world)
  ∧ Create.call Examples.create_env
      (Examples.args "/super/sub" (VBool false) VNone (VStr "yes")
         (VBool false))
      Examples.world
    = (Ok (mkDataset "/super/sub"), Examples.world).
Proof.
  split.
  - apply (create_unsupported_add_to_super Examples.create_env
             (Examples.args "/fresh" (VBool false) VNone (VStr "yes")
                (VBool false))
             Examples.world (mkDataset "/fresh"));
      try reflexivity. discriminate.
  - pose proof (create_unsupported_add_to_super Examples.create_env
             (Examples.args "/super/sub" (VBool false) VNone (VStr "yes")
                (VBool false))
             Examples.world (mkDataset "/super/sub") eq_refl eq_refl eq_refl
             eq_refl eq_refl ltac:(discriminate)) as [_ Hsup].
    exact (Hsup (mkDataset "/super") eq_refl).
Defined.

(** ** Dataset creation: the report *)

(** X9.  The dataset returned by a call without a usable [path] that was
    not handed over is reported by the renderer, in a single message, as
    created at the working directory. *)
Theorem create_reports_cwd (E : Create.Env) a w d w' :
  Create.path_truthy (Create.path a) = false →
  delegated a w (mkDataset (w_cwd w)) = false →
  Create.call E a w = (Ok d, w') →
  CreateRender.result_renderer_cmdline (CreateRender.ResDataset d)
  = ["Created dataset at " +:+ w_cwd w +:+ "."].
Proof.
  intros Hp Hd Hrun.
  assert (Ht : Create.target a w = (Ok (mkDataset (w_cwd w)), w)).
  { unfold Create.target. by rewrite Hp. }
  by destruct (call_returns E a w _ d w' Ht Hd Hrun) as (-> & _).
Qed.

Lemma create_reports_cwd_witness :
  CreateRender.result_renderer_cmdline
    (CreateRender.ResDataset
       (mkDataset (w_cwd Examples.world)))
  = ["Created dataset at /home/me."].
Proof.
  apply (create_reports_cwd Examples.create_env
           (with_path Create.PathNone Examples.recreate) Examples.world
           (mkDataset "/home/me")
           (snd (Create.call Examples.create_env
                   (with_path Create.PathNone Examples.recreate)
                   Examples.world))).
  - reflexivity.
  - reflexivity.
  - vm_compute. reflexivity.
Defined.

(** ** Plugin dispatch: errors and arguments *)

(** X10.  Only [ImportError] is turned into [ValueError]: any other
    exception raised while the plugin module is imported reaches the
    caller as it is, and nothing else has happened. *)
Theorem plugin_import_failure_propagates (E : Plugin.Env) plugin dataset
    showpluginhelp output kwargs w e :
  Plugin.import_module E ("." +:+ plugin) Plugin.package = Raise e →
  (∀ m, e ≠ ImportError m) →
  Plugin.call E plugin dataset showpluginhelp output kwargs w = (Raise e, w).
Proof.
  intros Himp He. unfold Plugin.call, Plugin.load. rewrite Himp.
  destruct e; try reflexivity. by destruct (He msg).
Qed.

(** X11.  Without [showpluginhelp] a dataset is required before anything
    else is done with the plugin: when [require_dataset] fails, its
    exception is the outcome of the call and the entry point has not
    been called. *)
Theorem plugin_requires_dataset (E : Plugin.Env) plugin dataset
    showpluginhelp output kwargs w pluginmod e w1 :
  Plugin.import_module E ("." +:+ plugin) Plugin.package = Ok pluginmod →
  truthy showpluginhelp = false →
  Plugin.require_dataset E dataset w = (Raise e, w1) →
  Plugin.call E plugin dataset showpluginhelp output kwargs w = (Raise e, w1).
Proof.
  intros Himp Hh Hreq. unfold Plugin.call, Plugin.load.
  rewrite Himp. unfold bind at 1. cbn [ret]. rewrite Hh.
  by rewrite (bind_raise _ _ _ _ _ Hreq).
Qed.

(** X12.  When [datalad_unparsed_args] is among the keyword arguments, it
    alone is passed to the plugin (as [argv], with [output]): all other
    keyword arguments are ignored, so two calls that agree on it have
    the same outcome. *)
Theorem plugin_unparsed_args_take_over (E : Plugin.Env) plugin dataset
    showpluginhelp output (kwargs kwargs' : gmap string pyval) argv w :
  kwargs !! "datalad_unparsed_args" = Some argv →
  kwargs' !! "datalad_unparsed_args" = Some argv →
  Plugin.call E plugin dataset showpluginhelp output kwargs w
  = Plugin.call E plugin dataset showpluginhelp output kwargs' w.
Proof.
  intros Hk Hk'. unfold Plugin.call. by rewrite Hk, Hk'.
Qed.

Lemma plugin_import_failure_propagates_witness :
  Plugin.call Examples.broken_env "export_tarball" Plugin.DatasetNone
    (VBool false) VNone ∅ Examples.world
  = (Raise (OtherError "SyntaxError" "invalid syntax"), Examples.world).
Proof.
  apply (plugin_import_failure_propagates Examples.broken_env
           "export_tarball" Plugin.DatasetNone (VBool false) VNone ∅
           Examples.world (OtherError "SyntaxError" "invalid syntax")).
  - reflexivity.
  - discriminate.
Defined.

Lemma plugin_requires_dataset_witness :
  Plugin.call Examples.plugin_env "export_tarball" Plugin.DatasetNone
    (VBool false) VNone ∅ Examples.world
  = (Raise (OtherError "NoDatasetArgumentFound" "No dataset found"),
     Examples.world).
Proof.
  apply (plugin_requires_dataset Examples.plugin_env "export_tarball"
           Plugin.DatasetNone (VBool false) VNone ∅ Examples.world
           Examples.export_tarball); reflexivity.
Defined.

Lemma plugin_unparsed_args_take_over_witness :
  Plugin.call Examples.dataset_env "export_tarball" Plugin.DatasetNone
    (VBool false) (VStr "out.tar")
    (<["compress" := VBool true]>
       {["datalad_unparsed_args" := VList ["-o"; "x"]]})
    Examples.world
  = Plugin.call Examples.dataset_env "export_tarball" Plugin.DatasetNone
      (VBool false) (VStr "out.tar")
      {["datalad_unparsed_args" := VList ["-o"; "x"]]}
      Examples.world.
Proof.
  apply (plugin_unparsed_args_take_over Examples.dataset_env
           "export_tarball" Plugin.DatasetNone (VBool false)
           (VStr "out.tar") _ _ (VList ["-o"; "x"]) Examples.world);
    reflexivity.
Defined.

(** ** The plugins on disk *)

Section Files.

Import PluginFiles.

Lemma string_length_app (s1 s2 : string) :
  String.length (s1 +:+ s2) = String.length s1 + String.length s2.
Proof.
  induction s1 as [|c s1 IH]; [reflexivity|].
  rewrite string_app_cons. cbn [String.length]. by rewrite IH.
Qed.

Lemma has_char_app c (s1 s2 : string) :
  has_char c (s1 +:+ s2) = has_char c s1 || has_char c s2.
Proof.
  induction s1 as [|c' s1 IH]; [reflexivity|].
  rewrite string_app_cons. cbn [has_char]. by rewrite IH, orb_assoc.
Qed.

Lemma eqb_has_char c (s t : string) :
  has_char c s = true → has_char c t = false → String.eqb s t = false.
Proof. intros Hs Ht. apply String.eqb_neq. intros ->. congruence. Qed.

(** A suffix without [/] is looked for in the last component only. *)
Lemma endswith_last_component (d t suffix : string) :
  has_char "/" suffix = false →
  endswith (d +:+ String "/" t) suffix = endswith t suffix.
Proof.
  intros Hs. induction d as [|c d IH].
  - change (EmptyString +:+ String "/" t) with (String "/" t).
    cbn [endswith]. rewrite (eqb_has_char "/"); [done| |done].
    cbn [has_char]. by rewrite Ascii.eqb_refl.
  - rewrite string_app_cons. cbn [endswith]. rewrite IH.
    rewrite (eqb_has_char "/"); [done| |done].
    cbn [has_char]. rewrite has_char_app. cbn [has_char].
    rewrite Ascii.eqb_refl. by rewrite ?orb_true_l, ?orb_true_r.
Qed.

Lemma endswith_app (d s : string) : endswith (d +:+ s) s = true.
Proof.
  induction d as [|c d IH].
  - change (EmptyString +:+ s) with s.
    destruct s; cbn [endswith]; by rewrite String.eqb_refl.
  - rewrite string_app_cons. cbn [endswith]. by rewrite IH, orb_true_r.
Qed.

Lemma basename_last_component (d t : string) :
  has_char "/" t = false → basename (d +:+ String "/" t) = t.
Proof.
  intros Ht. induction d as [|c d IH].
  - change (EmptyString +:+ String "/" t) with (String "/" t).
    cbn [basename]. by rewrite Ht, Ascii.eqb_refl.
  - rewrite string_app_cons. cbn [basename].
    rewrite has_char_app. cbn [has_char]. rewrite Ascii.eqb_refl.
    rewrite ?orb_true_l, ?orb_true_r. exact IH.
Qed.

Lemma take_app (s x : string) : take (String.length s) (s +:+ x) = s.
Proof.
  induction s as [|c s IH]; [by destruct x|].
  rewrite string_app_cons. cbn [String.length take]. by rewrite IH.
Qed.

Lemma drop_last3_py (n : string) : drop_last3 (n +:+ ".py") = n.
Proof.
  unfold drop_last3. rewrite string_length_app.
  change (String.length ".py") with 3.
  replace (String.length n + 3 - 3) with (String.length n) by lia.
  apply take_app.
Qed.

(** X13.  When the files found are the modules [n.py] of some
    directories, with names free of [/] and none ending in [__init__],
    the plugin names are exactly the module names [n], in the order the
    files were found. *)
Theorem get_plugin_names_of_modules basepath glob
    (files : list (string * string)) :
  Forall (λ f, has_char "/" f.2 = false
               ∧ endswith (f.2 +:+ ".py") "__init__.py" = false) files →
  glob (opj basepath "*.py") = module_file <$> files →
  get_plugin_names basepath glob = files.*2.
Proof.
  intros Hfiles Hglob. unfold get_plugin_names. rewrite Hglob. clear Hglob.
  induction Hfiles as [|[d n] files [Hn Hinit] _ IH]; [done|].
  cbn [fmap list_fmap List.filter]. unfold module_file at 1. cbn [fst snd].
  rewrite endswith_last_component by reflexivity.
  cbn [fst snd] in Hn, Hinit. rewrite Hinit. cbn [negb fmap list_fmap].
  f_equal; [|exact IH].
  unfold module_file. cbn [fst snd].
  rewrite basename_last_component.
  - apply drop_last3_py.
  - rewrite has_char_app, Hn. reflexivity.
Qed.

Lemma get_plugin_names_of_modules_witness :
  get_plugin_names "/lib/datalad/plugin"
    (λ _, ["/lib/datalad/plugin/export_tarball.py";
           "/lib/datalad/plugin/no_annex.py"])
  = ["export_tarball"; "no_annex"].
Proof.
  apply (get_plugin_names_of_modules "/lib/datalad/plugin" _
           [("/lib/datalad/plugin", "export_tarball");
            ("/lib/datalad/plugin", "no_annex")]).
  - repeat constructor.
  - reflexivity.
Defined.

(** X14.  A file whose path ends in [__init__.py] never gives a plugin
    name: the package's own [__init__.py], and equally a module such as
    [my__init__.py]; the other files are listed as if it were not
    there. *)
Theorem get_plugin_names_skips_init basepath glob (d : string)
    (before after : list string) :
  glob (opj basepath "*.py") = before ++ (d +:+ "__init__.py") :: after →
  get_plugin_names basepath glob
  = get_plugin_names basepath (λ _, before ++ after).
Proof.
  intros Hglob. unfold get_plugin_names. rewrite Hglob.
  rewrite !List.filter_app. cbn [List.filter].
  by rewrite endswith_app.
Qed.

Lemma get_plugin_names_skips_init_witness :
  get_plugin_names "/lib/datalad/plugin"
    (λ _, ["/lib/datalad/plugin/export_tarball.py";
           "/lib/datalad/plugin/my__init__.py";
           "/lib/datalad/plugin/no_annex.py"])
  = ["export_tarball"; "no_annex"].
Proof.
  apply (get_plugin_names_skips_init "/lib/datalad/plugin" _
           "/lib/datalad/plugin/my"
           ["/lib/datalad/plugin/export_tarball.py"]
           ["/lib/datalad/plugin/no_annex.py"]).
  reflexivity.
Defined.

End Files.

(** ** Showing a plugin's help *)

Section Help.

Import PluginRender.

Lemma spaces_length n : String.length (spaces n) = n.
Proof. induction n as [|n IH]; cbn; [done|by rewrite IH]. Qed.

(** Line 109 pads a substitute to the width of what it stands for, and
    never shortens it. *)
Lemma padded_length (in_s out_s : string) :
  String.length (padded in_s out_s)
  = String.length in_s `max` String.length out_s.
Proof.
  unfold padded. rewrite string_length_app, spaces_length. lia.
Qed.

Lemma prefix_length (old s : string) :
  String.prefix old s = true → String.length old ≤ String.length s.
Proof.
  revert old. induction s as [|c s IH]; intros [|c' old] H;
    cbn in *; try lia; try discriminate.
  destruct (ascii_dec c' c); [|discriminate]. apply IH in H. lia.
Qed.

Lemma insert_around_empty (s : string) : insert_around EmptyString s = s.
Proof.
  induction s as [|c s IH]; [reflexivity|].
  cbn [insert_around]. rewrite IH. reflexivity.
Qed.

(** Replacing occurrences by something of the same length keeps the
    length of what is left to scan. *)
Lemma replace_from_length (old new : string) :
  String.length new = String.length old →
  0 < String.length old →
  ∀ s skip, skip ≤ String.length s →
    String.length (replace_from old new skip s) = String.length s - skip.
Proof.
  intros Hlen Hold. induction s as [|c s IH]; intros skip Hskip.
  - cbn in *. lia.
  - destruct skip as [|k]; cbn [replace_from].
    + destruct (String.prefix old (String c s)) eqn:Hp.
      * apply prefix_length in Hp. cbn [String.length] in Hp.
        rewrite string_length_app, IH by lia. cbn [String.length]. lia.
      * cbn [String.length]. rewrite IH by lia. lia.
    + cbn [String.length] in *. rewrite IH by lia. lia.
Qed.

Lemma py_replace_length (s old new : string) :
  String.length new = String.length old →
  String.length (py_replace s old new) = String.length s.
Proof.
  intros Hlen. unfold py_replace. destruct old as [|c old].
  - destruct new; [|discriminate]. by rewrite insert_around_empty.
  - rewrite replace_from_length; cbn [String.length] in *; lia.
Qed.

Lemma apply_replacement_length (replacement : list (string * string)) :
  Forall (λ r, String.length r.2 ≤ String.length r.1) replacement →
  ∀ help, String.length (apply_replacement help replacement)
          = String.length help.
Proof.
  unfold apply_replacement.
  induction 1 as [|[in_s out_s] replacement Hr _ IH]; intros help; [done|].
  cbn [fold_left fst snd] in *. rewrite IH.
  apply py_replace_length. rewrite padded_length. lia.
Qed.

(** X15.  When no substitute is longer than the placeholder it stands
    for, the help that is printed has exactly the length of the help the
    plugin returned: each substitute is padded with spaces to the width
    of its placeholder, so the layout of the text is kept. *)
Theorem plugin_help_keeps_its_length (R : Env) pluginmod result
    showpluginhelp help replacement :
  truthy showpluginhelp = true →
  get_plugin_help R pluginmod = Some (HelpWithReplacement help replacement) →
  Forall (λ r, String.length r.2 ≤ String.length r.1) replacement →
  ∃ text,
    result_renderer_cmdline R (pluginmod, result) showpluginhelp
    = [Printed text]
    ∧ String.length text = String.length help.
Proof.
  intros Hh Hget Hfit. unfold result_renderer_cmdline.
  rewrite Hh, Hget. eexists. split; [reflexivity|].
  destruct (negb _); [|done]. by apply apply_replacement_length.
Qed.

Lemma plugin_help_keeps_its_length_witness :
  ∃ text,
    result_renderer_cmdline Examples.render_env
      (Examples.export_tarball, VNone) (VBool true)
    = [Printed text]
    ∧ String.length text = String.length "usage: %(prog)s [-h] [output]".
Proof.
  apply (plugin_help_keeps_its_length Examples.render_env
           Examples.export_tarball VNone (VBool true)
           "usage: %(prog)s [-h] [output]" [("%(prog)s", "tarball")]).
  - reflexivity.
  - reflexivity.
  - constructor; [cbn; lia|constructor].
Defined.

(** X16.  The renderer prints at most one text, and only when help was
    asked for and the plugin provides it; asked for help that the plugin
    does not provide, it prints nothing and logs one error naming the
    plugin; a help given as a plain string is printed as it is. *)
Theorem plugin_help_is_printed_on_request (R : Env) pluginmod result
    showpluginhelp :
  (∀ text,
     Printed text
     ∈ result_renderer_cmdline R (pluginmod, result) showpluginhelp →
     truthy showpluginhelp = true
     ∧ is_Some (get_plugin_help R pluginmod)
     ∧ result_renderer_cmdline R (pluginmod, result) showpluginhelp
       = [Printed text])
  ∧ (truthy showpluginhelp = true →
     get_plugin_help R pluginmod = None →
     result_renderer_cmdline R (pluginmod, result) showpluginhelp
     = [LoggedError ("plugin '" +:+ module_str R pluginmod +:+
                     "' does not provide help")])
  ∧ (truthy showpluginhelp = true →
     ∀ help, get_plugin_help R pluginmod = Some (HelpText help) →
             result_renderer_cmdline R (pluginmod, result) showpluginhelp
             = [Printed help]).
Proof.
  unfold result_renderer_cmdline. split; [|split].
  - intros text Hin.
    destruct (truthy showpluginhelp); [|by apply elem_of_nil in Hin].
    destruct (get_plugin_help R pluginmod) as [h|].
    + split; [done|]. split; [by eexists|].
      destruct h; cbn beta iota in Hin |- *;
        apply list_elem_of_singleton in Hin; by rewrite Hin.
    + apply list_elem_of_singleton in Hin. discriminate.
  - intros -> ->. reflexivity.
  - intros -> help ->. reflexivity.
Qed.

Lemma plugin_help_is_printed_on_request_witness :
  result_renderer_cmdline Examples.render_env
    (Examples.export_tarball, VNone) (VBool false) = []
  ∧ result_renderer_cmdline Examples.render_env
      (Plugin.mkPluginModule "datalad.plugin.no_annex" None, VNone)
      (VBool true)
    = [LoggedError "plugin 'datalad.plugin.no_annex' does not provide help"].
Proof.
  split; [reflexivity|].
  apply (plugin_help_is_printed_on_request Examples.render_env
           (Plugin.mkPluginModule "datalad.plugin.no_annex" None) VNone
           (VBool true)); reflexivity.
Defined.

End Help.
